(** * The OAuth broker of [backend/app.py]

    A shallow embedding of the Flask application: the start-up checks on the
    environment, the three functions [start_oauth], [handle_callback] and
    [refresh_access_token], and the [AmazonSeller] table they write to.

    What the code leaves to its libraries is kept outside the functions and
    handed to them:
    - the answer of the provider to a [requests.post] is an argument [net];
    - [datetime.utcnow] and [uuid.uuid4] are arguments [now] and [uuid4];
    - the database driver's rendering of a bound value and the text of an
      exception are variables of the section [Routes].

    Python values are the ones [json] decoding produces, without floats.
    Strings are sequences of bytes.  Logging is not modelled, except that an
    expression evaluated for a log line can raise. *)

From Stdlib Require Import ZArith Bool List Ascii String Lia.
From stdpp Require Import base gmap strings.
Import ListNotations.

Local Open Scope string_scope.
Local Open Scope Z_scope.

(** ** Python values *)

#[local] Set Warnings "-register-all".

Inductive pyval :=
| PNone
| PBool (b : bool)
| PInt (z : Z)
| PStr (s : string)
| PList (l : list pyval)
| PDict (d : list (string * pyval)).

(** [not v] *)
Definition py_not (v : pyval) : bool :=
  match v with
  | PNone => true
  | PBool b => negb b
  | PInt z => z =? 0
  | PStr s => String.eqb s ""
  | PList l => match l with [] => true | _ => false end
  | PDict d => match d with [] => true | _ => false end
  end.

(** A value read from the session is [None] or a [str]: only [start_oauth]
    writes the session, and it writes [str(uuid.uuid4())]. *)
Definition of_session (o : option string) : pyval :=
  match o with
  | Some s => PStr s
  | None => PNone
  end.

(** [v != session_state], where [session_state] came from the session.
    [None] equals only [None], and a [str] equals only the same [str]. *)
Definition py_ne (v : pyval) (session_state : option string) : bool :=
  match v, session_state with
  | PNone, None => false
  | PStr a, Some b => negb (String.eqb a b)
  | _, _ => true
  end.

(** The items of a [dict]; [d.get(k)] as an option. *)
Fixpoint dict_get (d : list (string * pyval)) (k : string) : option pyval :=
  match d with
  | [] => None
  | (k', v) :: d' => if String.eqb k' k then Some v else dict_get d' k
  end.

(** [request.args.get(k)]: the first value of the key, or [None]. *)
Fixpoint args_get (args : list (string * string)) (k : string) : pyval :=
  match args with
  | [] => PNone
  | (k', v) :: args' => if String.eqb k' k then PStr v else args_get args' k
  end.

(** ** Configuration and start-up *)

Record config := Config {
  secret_key : option string;
  LWA_APP_ID : string;
  LWA_CLIENT_SECRET : string;
  REDIRECT_URI : string;
  DATABASE_URL : string
}.

(** [not x] for the result of [os.getenv]. *)
Definition unset (x : option string) : bool :=
  match x with
  | None => true
  | Some s => String.eqb s ""
  end.

Inductive boot :=
| Abort (message : string)
| Started (cfg : config).

(** The module-level statements up to the second [raise].  [env] is the
    environment after [load_dotenv()]. *)
Definition startup (env : gmap string string) : boot :=
  let secret := env !! "FLASK_SECRET_KEY" in
  let app_id := env !! "LWA_APP_ID" in
  let client_secret := env !! "LWA_CLIENT_SECRET" in
  let redirect_uri := env !! "REDIRECT_URI" in
  let database_url := env !! "DATABASE_URL" in
  if unset app_id || unset client_secret || unset redirect_uri then
    Abort "Amazon SP-API credentials are missing. Check your environment variables."
  else if unset database_url then
    Abort "Database URL is missing. Ensure DATABASE_URL is set in your environment variables."
  else
    Started {| secret_key := secret;
               LWA_APP_ID := default "" app_id;
               LWA_CLIENT_SECRET := default "" client_secret;
               REDIRECT_URI := default "" redirect_uri;
               DATABASE_URL := default "" database_url |}.

(** ** The table and the world *)

Record AmazonSeller := Seller {
  id : Z;
  selling_partner_id : string;
  refresh_token : string;
  created_at : Z
}.

Inductive column := ColPartner | ColToken.

(** The row's [selling_partner_id] is the text [q]. *)
Definition has_partner (q : string) (r : AmazonSeller) : bool :=
  String.eqb (selling_partner_id r) q.

(** One outgoing [requests.post(url, data=..., headers=...)]. *)
Record call := Call {
  url : string;
  data : list (string * pyval);
  headers : list (string * string)
}.

(** What [requests.post] gives back: it raises, or it returns a response
    with a status code and a body; [json_body] is [None] when [.json()]
    raises on that body. *)
Inductive post_result :=
| NetRaise (message : string)
| NetResp (status_code : Z) (json_body : option pyval).

(** The caller's session, the table with its id sequence, and the calls made
    to the provider so far (latest first). *)
Record world := World {
  session : gmap string string;
  sellers : list AmazonSeller;
  next_id : Z;
  outbox : list call
}.

Inductive exn :=
| BadRequest
| AttributeError (v : pyval)
| RequestException (message : string)
| JSONDecodeError
| IntegrityError (c : column)
| DataError (c : column) (v : pyval)
| SessionUnavailable.

(** ** Computations that read and write the world and may raise *)

Definition M (A : Type) : Type := world -> (exn + A) * world.

Definition ret {A} (a : A) : M A := fun w => (inr a, w).

Definition raise {A} (e : exn) : M A := fun w => (inl e, w).

Definition bind {A B} (m : M A) (k : A -> M B) : M B :=
  fun w =>
    match m w with
    | (inl e, w') => (inl e, w')
    | (inr a, w') => k a w'
    end.

(** [try: m  except Exception as e: h e].  What [m] did to the world before
    it raised stays done. *)
Definition try_except {A} (m : M A) (h : exn -> M A) : M A :=
  fun w =>
    match m w with
    | (inl e, w') => h e w'
    | (inr a, w') => (inr a, w')
    end.

Declare Scope py_scope.
Delimit Scope py_scope with py.
Notation "x <- m ;; k" := (bind m (fun x => k))
  (at level 100, m at next level, right associativity) : py_scope.
Notation "m ;; k" := (bind m (fun _ => k))
  (at level 100, right associativity) : py_scope.

Local Open Scope py_scope.

Section Routes.

(** The configuration the process started with. *)
Variable cfg : config.

(** What the database driver makes of a value bound to a text column that
    is not [None]: the text it compares and stores, or [None] when it
    refuses the value and raises. *)
Variable adapt : column -> pyval -> option string.

(** [str(e)] *)
Variable str_exn : exn -> string.

(** *** Flask's session *)

(** Without a secret key Flask hands out its null session, which reads as
    empty and raises on a write. *)
Definition session_get (k : string) : M (option string) :=
  fun w => (inr (if unset (secret_key cfg) then None else session w !! k), w).

Definition session_set (k v : string) : M unit :=
  fun w =>
    if unset (secret_key cfg) then (inl SessionUnavailable, w)
    else (inr tt, World (<[k:=v]> (session w)) (sellers w) (next_id w) (outbox w)).

(** *** Requests and responses *)

(** The route accepts GET and POST; Flask adds HEAD to a route that
    accepts GET.  [body] is [None] when [request.json] raises. *)
Inductive request :=
| GET (args : list (string * string))
| HEAD (args : list (string * string))
| POST (body : option pyval).

Inductive response :=
| Jsonify (body : list (string * pyval)) (status : Z)
| Redirect (location : string).

Definition request_json (body : option pyval) : M pyval :=
  match body with
  | Some v => ret v
  | None => raise BadRequest
  end.

(** [v.get(k)] *)
Definition py_get (v : pyval) (k : string) : M pyval :=
  match v with
  | PDict d => ret (default PNone (dict_get d k))
  | _ => raise (AttributeError v)
  end.

(** *** The provider *)

Definition requests_post (net : call -> post_result) (c : call) : M (Z * option pyval) :=
  fun w =>
    let w' := World (session w) (sellers w) (next_id w) (c :: outbox w) in
    match net c with
    | NetRaise msg => (inl (RequestException msg), w')
    | NetResp status_code json_body => (inr (status_code, json_body), w')
    end.

(** [response.json()] *)
Definition response_json (r : Z * option pyval) : M pyval :=
  match snd r with
  | Some v => ret v
  | None => raise JSONDecodeError
  end.

(** *** The table *)

(** [AmazonSeller.query.filter_by(selling_partner_id=v).first()] *)
Definition query_first (v : pyval) : M (option AmazonSeller) :=
  match v with
  | PNone => ret None
  | _ =>
      match adapt ColPartner v with
      | Some q => fun w => (inr (find (has_partner q) (sellers w)), w)
      | None => raise (DataError ColPartner v)
      end
  end.

(** What the unit of work holds when [db.session.commit()] is reached. *)
Inductive change :=
| SetToken (row : AmazonSeller) (v : pyval)
| AddSeller (partner : pyval) (v : pyval).

(** A value for a column declared [nullable=False]. *)
Definition bind_text (c : column) (v : pyval) : M string :=
  match v with
  | PNone => raise (IntegrityError c)
  | _ =>
      match adapt c v with
      | Some s => ret s
      | None => raise (DataError c v)
      end
  end.

Definition set_token (i : Z) (t : string) (r : AmazonSeller) : AmazonSeller :=
  if id r =? i then Seller (id r) (selling_partner_id r) t (created_at r) else r.

(** [db.session.commit()]: the UPDATE or the INSERT, with the constraints
    the model declares.  A commit that raises leaves the table as it was. *)
Definition db_commit (now : Z) (c : change) : M unit :=
  match c with
  | SetToken row v =>
      t <- bind_text ColToken v ;;
      fun w => (inr tt, World (session w) (map (set_token (id row) t) (sellers w))
                              (next_id w) (outbox w))
  | AddSeller partner v =>
      p <- bind_text ColPartner partner ;;
      t <- bind_text ColToken v ;;
      fun w =>
        if existsb (has_partner p) (sellers w)
        then (inl (IntegrityError ColPartner), w)
        else (inr tt, World (session w) (sellers w ++ [Seller (next_id w) p t now])
                            (next_id w + 1) (outbox w))
  end.

(** *** The routes *)

(** [str(uuid.uuid4())]; the random draw is the argument. *)
Definition generate_state (uuid4 : string) : string := uuid4.

Definition start_oauth (uuid4 : string) : M response :=
  try_except
    (let state := generate_state uuid4 in
     session_set "oauth_state" state ;;
     let amazon_auth_url :=
       "https://sellercentral.amazon.com.mx/apps/authorize/consent"
       +:+ "?application_id=" +:+ LWA_APP_ID cfg
       +:+ "&state=" +:+ state
       +:+ "&version=beta"
       +:+ "&redirect_uri=" +:+ REDIRECT_URI cfg in
     ret (Redirect amazon_auth_url))
    (fun e => ret (Jsonify [("error", PStr ("An error occurred: " +:+ str_exn e))] 500)).

Definition token_url : string := "https://api.amazon.com/auth/o2/token".

Definition form_headers : list (string * string) :=
  [("Content-Type", "application/x-www-form-urlencoded")].

(** The POST of the authorization code that [handle_callback] sends. *)
Definition code_call (auth_code : pyval) : call :=
  Call token_url
       [("grant_type", PStr "authorization_code");
        ("code", auth_code);
        ("redirect_uri", PStr (REDIRECT_URI cfg));
        ("client_id", PStr (LWA_APP_ID cfg));
        ("client_secret", PStr (LWA_CLIENT_SECRET cfg))]
       form_headers.

(** The function falls off its end for a method that is neither GET nor
    POST and returns [None]. *)
Definition handle_callback (req : request) (net : call -> post_result) (now : Z)
  : M (option response) :=
  try_except
    (match req with
     | GET args =>
         let auth_code := args_get args "spapi_oauth_code" in
         let state := args_get args "state" in
         let selling_partner_id := args_get args "selling_partner_id" in
         session_state <- session_get "oauth_state" ;;
         if py_ne state session_state then
           ret (Some (Jsonify [("error", PStr "Invalid state parameter in GET request")] 400))
         else if py_not auth_code || py_not state || py_not selling_partner_id then
           ret (Some (Jsonify [("error", PStr "Missing required parameters in GET request")] 400))
         else
           ret (Some (Jsonify [("message", PStr "GET request successful");
                               ("auth_code", auth_code)] 200))
     | POST body =>
         data <- request_json body ;;
         auth_code <- py_get data "code" ;;
         state <- py_get data "state" ;;
         selling_partner_id <- py_get data "selling_partner_id" ;;
         session_state <- session_get "oauth_state" ;;
         if py_ne state session_state then
           ret (Some (Jsonify [("error", PStr "Invalid state parameter in POST request")] 400))
         else if py_not auth_code || py_not state || py_not selling_partner_id then
           ret (Some (Jsonify [("error", PStr "Missing required parameters in POST request")] 400))
         else
           token_response <- requests_post net (code_call auth_code) ;;
           if negb (fst token_response =? 200) then
             details <- response_json token_response ;;
             ret (Some (Jsonify [("error", PStr "Failed to exchange authorization code");
                                 ("details", details)] 400))
           else
             token_data <- response_json token_response ;;
             refresh_token <- py_get token_data "refresh_token" ;;
             existing_seller <- query_first selling_partner_id ;;
             db_commit now
               (match existing_seller with
                | Some row => SetToken row refresh_token
                | None => AddSeller selling_partner_id refresh_token
                end) ;;
             ret (Some (Jsonify [("message", PStr "Authorization successful")] 200))
     | HEAD _ => ret None
     end)
    (fun e => ret (Some (Jsonify [("error", PStr ("An error occurred: " +:+ str_exn e))] 500))).

(** The POST that [refresh_access_token] sends. *)
Definition refresh_call (refresh_token : pyval) : call :=
  Call token_url
       [("grant_type", PStr "refresh_token");
        ("refresh_token", refresh_token);
        ("client_id", PStr (LWA_APP_ID cfg));
        ("client_secret", PStr (LWA_CLIENT_SECRET cfg))]
       form_headers.

(** The log line of the failure branch evaluates [response.json()]. *)
Definition refresh_access_token (refresh_token : pyval) (net : call -> post_result)
  : M pyval :=
  try_except
    (response <- requests_post net (refresh_call refresh_token) ;;
     if negb (fst response =? 200) then
       response_json response ;;
       ret PNone
     else
       token_data <- response_json response ;;
       py_get token_data "access_token")
    (fun _ => ret PNone).

(** [handle_webhook]: the body is decoded for the log line and not looked
    at. *)
Definition handle_webhook (body : option pyval) : M response :=
  try_except
    (data <- request_json body ;;
     ret (Jsonify [("message", PStr "Webhook received successfully")] 200))
    (fun e => ret (Jsonify [("error", PStr ("An error occurred: " +:+ str_exn e))] 500)).

(** *** What the statements below speak about *)

(** What [session.get('oauth_state')] returns in a world. *)
Definition bound_nonce (w : world) : option string :=
  if unset (secret_key cfg) then None else session w !! "oauth_state".

Definition method (req : request) : string :=
  match req with
  | GET _ => "GET"
  | HEAD _ => "HEAD"
  | POST _ => "POST"
  end.

(** The values [handle_callback] binds to [auth_code], [state] and
    [selling_partner_id], when it gets as far as binding them. *)
Definition callback_fields (req : request) : option (pyval * pyval * pyval) :=
  match req with
  | GET args =>
      Some (args_get args "spapi_oauth_code", args_get args "state",
            args_get args "selling_partner_id")
  | POST (Some (PDict d)) =>
      Some (default PNone (dict_get d "code"), default PNone (dict_get d "state"),
            default PNone (dict_get d "selling_partner_id"))
  | _ => None
  end.

(** The two answers of the validation. *)
Definition state_error (req : request) : response :=
  Jsonify [("error", PStr ("Invalid state parameter in " +:+ method req +:+ " request"))] 400.

Definition missing_error (req : request) : response :=
  Jsonify [("error", PStr ("Missing required parameters in " +:+ method req +:+ " request"))] 400.

(** The answer of the [except] branch. *)
Definition internal_error (e : exn) : response :=
  Jsonify [("error", PStr ("An error occurred: " +:+ str_exn e))] 500.

End Routes.

(** A computation leaves a component [f] of the world as it found it. *)
Definition preserves {A X : Type} (f : world -> X) (m : M A) : Prop :=
  forall w, f (snd (m w)) = f w.

(** The table together with its id sequence. *)
Definition store (w : world) : list AmazonSeller * Z := (sellers w, next_id w).

(** A computation maintains a property [P] of the world. *)
Definition keeps {A : Type} (P : world -> Prop) (m : M A) : Prop :=
  forall w, P w -> P (snd (m w)).

(** A URL made of an endpoint and query parameters, written [k=v] and joined
    with [&], nothing escaped. *)
Fixpoint query_string (params : list (string * string)) : string :=
  match params with
  | [] => ""
  | [(k, v)] => k +:+ "=" +:+ v
  | (k, v) :: rest => k +:+ "=" +:+ v +:+ "&" +:+ query_string rest
  end.

Definition url_with_query (endpoint : string) (params : list (string * string)) : string :=
  endpoint +:+ "?" +:+ query_string params.

Definition authorize_endpoint : string :=
  "https://sellercentral.amazon.com.mx/apps/authorize/consent".

(** Reading a URL back: the text after the first [?], split at every [&],
    each piece cut at its first [=]; nothing unescaped. *)
Fixpoint contains (sep : ascii) (s : string) : bool :=
  match s with
  | EmptyString => false
  | String c s' => Ascii.eqb c sep || contains sep s'
  end.

Fixpoint cut (sep : ascii) (s : string) : string * string :=
  match s with
  | EmptyString => (EmptyString, EmptyString)
  | String c s' =>
      if Ascii.eqb c sep then (EmptyString, s')
      else let (a, b) := cut sep s' in (String c a, b)
  end.

Fixpoint split_on (sep : ascii) (s : string) : list string :=
  match s with
  | EmptyString => [EmptyString]
  | String c s' =>
      if Ascii.eqb c sep then EmptyString :: split_on sep s'
      else match split_on sep s' with
           | h :: t => String c h :: t
           | [] => [String c EmptyString]
           end
  end.

Definition query_params (url : string) : list (string * string) :=
  map (cut "=") (split_on "&" (snd (cut "?" url))).

(** The value of the first parameter named [k]. *)
Fixpoint param (k : string) (params : list (string * string)) : option string :=
  match params with
  | [] => None
  | (k', v) :: rest => if String.eqb k' k then Some v else param k rest
  end.

(** The world once the call [c] has gone out. *)
Definition sent (c : call) (w : world) : world :=
  World (session w) (sellers w) (next_id w) (c :: outbox w).

(** The rows stored for the partner [q]. *)
Definition records_of (q : string) (w : world) : list AmazonSeller :=
  List.filter (has_partner q) (sellers w).

(** The constraint [unique=True] on [selling_partner_id]. *)
Definition unique_partners (w : world) : Prop :=
  List.NoDup (map selling_partner_id (sellers w)).

(** What a committed exchange does to the table: the row found for [q] gets
    the token [t], or a new row is appended with [now] as [created_at]. *)
Definition upsert (q t : string) (now : Z) (w : world) : world :=
  match find (has_partner q) (sellers w) with
  | Some row =>
      World (session w) (map (set_token (id row) t) (sellers w)) (next_id w) (outbox w)
  | None =>
      World (session w) (sellers w ++ [Seller (next_id w) q t now]) (next_id w + 1) (outbox w)
  end.

(** The primary key: ids are distinct and below the next value of the
    sequence. *)
Definition keys_fresh (w : world) : Prop :=
  List.NoDup (map id (sellers w)) /\ Forall (fun r => id r < next_id w) (sellers w).

(** The answer of a completed exchange. *)
Definition authorized : response :=
  Jsonify [("message", PStr "Authorization successful")] 200.

(** The row [r] is in the table, up to its refresh token. *)
Definition holds_row (r : AmazonSeller) (w : world) : Prop :=
  exists r', In r' (sellers w)
             /\ id r' = id r
             /\ selling_partner_id r' = selling_partner_id r
             /\ created_at r' = created_at r.

(** *** A driver, an exception printer and a start state for examples *)

Definition text_only (c : column) (v : pyval) : option string :=
  match v with
  | PStr s => Some s
  | _ => None
  end.

Definition exn_name (e : exn) : string :=
  match e with
  | BadRequest => "BadRequest"
  | AttributeError _ => "AttributeError"
  | RequestException m => m
  | JSONDecodeError => "JSONDecodeError"
  | IntegrityError _ => "IntegrityError"
  | DataError _ _ => "DataError"
  | SessionUnavailable => "SessionUnavailable"
  end.

Definition cfg0 : config :=
  Config (Some "k") "APP" "SECRET" "https://broker.example/callback" "postgres://db".

(** A caller whose session has the nonce ["X"] bound, and an empty table. *)
Definition w0 : world := World {["oauth_state" := "X"]} [] 1 [].

(** A provider that answers 200 with the given JSON object. *)
Definition answers (d : list (string * pyval)) : call -> post_result :=
  fun _ => NetResp 200 (Some (PDict d)).

(** A provider that refuses the code. *)
Definition refuses : call -> post_result :=
  fun _ => NetResp 400 (Some (PDict [("error", PStr "invalid_grant")])).

(** A provider that is never reached. *)
Definition unreachable : call -> post_result :=
  fun _ => NetRaise "unreachable".

Definition get_X : request :=
  GET [("spapi_oauth_code", "abc"); ("state", "X"); ("selling_partner_id", "P1")].

(** The state differs from the bound nonce in the case of one letter. *)
Definition get_x : request :=
  GET [("spapi_oauth_code", "abc"); ("state", "x"); ("selling_partner_id", "P1")].

Definition post_P1 : request :=
  POST (Some (PDict [("code", PStr "abc"); ("state", PStr "X");
                     ("selling_partner_id", PStr "P1")])).

(** No code, and a state that is not the bound nonce. *)
Definition post_Y_no_code : request :=
  POST (Some (PDict [("state", PStr "Y"); ("selling_partner_id", PStr "P1")])).

(** A caller with nothing bound in the session. *)
Definition w_fresh : world := World ∅ [] 1 [].

(** The nonce ["X"] bound, and a row stored for the partner ["P2"]. *)
Definition w_P2 : world :=
  World {["oauth_state" := "X"]} [Seller 1 "P2" "RT0" 50] 2 [].

(** A GET with a code and a partner id and no state. *)
Definition get_no_state : request :=
  GET [("spapi_oauth_code", "abc"); ("selling_partner_id", "P1")].

(** An environment with everything but [FLASK_SECRET_KEY]. *)
Definition env_no_secret : gmap string string :=
  list_to_map [("LWA_APP_ID", "amzn1.app"); ("LWA_CLIENT_SECRET", "s3cret");
               ("REDIRECT_URI", "https://broker.example/callback");
               ("DATABASE_URL", "postgres://db")].

Definition env_no_database : gmap string string :=
  list_to_map [("FLASK_SECRET_KEY", "k"); ("LWA_APP_ID", "amzn1.app");
               ("LWA_CLIENT_SECRET", "s3cret");
               ("REDIRECT_URI", "https://broker.example/callback")].

(** * Properties *)

Section Properties.

Variable cfg : config.
Variable adapt : column -> pyval -> option string.
Variable str_exn : exn -> string.

Local Abbreviation callback := (handle_callback cfg adapt str_exn).
Local Abbreviation nonce := (bound_nonce cfg).

(** ** The comparison of the state *)

Lemma py_ne_false v o : py_ne v o = false <-> v = of_session o.
Proof.
  destruct v, o; simpl; split; try congruence.
  - intros H. apply negb_false_iff, String.eqb_eq in H. congruence.
  - intros [= ->]. apply negb_false_iff, String.eqb_refl.
Qed.

Lemma py_ne_true v o : py_ne v o = true <-> v <> of_session o.
Proof.
  rewrite <- py_ne_false. destruct (py_ne v o); split; congruence.
Qed.

(** ** Which part of the world each primitive can touch *)

Lemma preserves_ret {A X} (f : world -> X) (a : A) : preserves f (ret a).
Proof. intros w. reflexivity. Qed.

Lemma preserves_raise {A X} (f : world -> X) e : preserves f (@raise A e).
Proof. intros w. reflexivity. Qed.

Lemma preserves_bind {A B X} (f : world -> X) (m : M A) (k : A -> M B) :
  preserves f m -> (forall a, preserves f (k a)) -> preserves f (bind m k).
Proof.
  intros Hm Hk w. unfold bind. specialize (Hm w).
  destruct (m w) as [[e | a] w1]; simpl in *; [assumption |].
  rewrite Hk. assumption.
Qed.

Lemma preserves_try {A X} (f : world -> X) (m : M A) (h : exn -> M A) :
  preserves f m -> (forall e, preserves f (h e)) -> preserves f (try_except m h).
Proof.
  intros Hm Hh w. unfold try_except. specialize (Hm w).
  destruct (m w) as [[e | a] w1]; simpl in *; [| assumption].
  rewrite Hh. assumption.
Qed.

Lemma preserves_session_get {X} (f : world -> X) k : preserves f (session_get cfg k).
Proof. intros w. reflexivity. Qed.

Lemma preserves_request_json {X} (f : world -> X) b : preserves f (request_json b).
Proof. destruct b; intros w; reflexivity. Qed.

Lemma preserves_py_get {X} (f : world -> X) v k : preserves f (py_get v k).
Proof. destruct v; intros w; reflexivity. Qed.

Lemma preserves_response_json {X} (f : world -> X) r : preserves f (response_json r).
Proof. destruct r as [z []]; intros w; reflexivity. Qed.

Lemma preserves_query_first {X} (f : world -> X) v : preserves f (query_first adapt v).
Proof.
  unfold query_first. destruct v; try (intros w; reflexivity);
    destruct (adapt ColPartner _); intros w; reflexivity.
Qed.

Lemma preserves_bind_text {X} (f : world -> X) c v : preserves f (bind_text adapt c v).
Proof.
  unfold bind_text. destruct v; try (intros w; reflexivity);
    destruct (adapt c _); intros w; reflexivity.
Qed.

Lemma requests_post_session net c : preserves session (requests_post net c).
Proof. intros w. unfold requests_post. destruct (net c); reflexivity. Qed.

Lemma requests_post_store net c : preserves store (requests_post net c).
Proof. intros w. unfold requests_post. destruct (net c); reflexivity. Qed.

Lemma db_commit_session now c : preserves session (db_commit adapt now c).
Proof.
  destruct c as [row v | partner v]; unfold db_commit.
  - apply preserves_bind; [apply preserves_bind_text | intros t w; reflexivity].
  - apply preserves_bind; [apply preserves_bind_text | intros q].
    apply preserves_bind; [apply preserves_bind_text | intros t w].
    destruct (existsb _ _); reflexivity.
Qed.

Lemma session_set_store k v : preserves store (session_set cfg k v).
Proof. intros w. unfold session_set. destruct (unset _); reflexivity. Qed.

Lemma session_set_outbox k v : preserves outbox (session_set cfg k v).
Proof. intros w. unfold session_set. destruct (unset _); reflexivity. Qed.

Create HintDb frame.

#[local] Hint Resolve preserves_ret preserves_raise preserves_session_get
  preserves_request_json preserves_py_get preserves_response_json
  preserves_query_first preserves_bind_text requests_post_session
  requests_post_store db_commit_session session_set_store session_set_outbox : frame.

Ltac frame :=
  repeat first
    [ solve [auto with frame]
    | apply preserves_try; [| intros ?]
    | apply preserves_bind; [| intros ?]
    | match goal with
      | |- preserves _ (if ?b then _ else _) => destruct b
      | |- preserves _ (match ?x with _ => _ end) => destruct x
      end ].

Lemma callback_session req net now : preserves session (callback req net now).
Proof. unfold handle_callback. frame. Qed.

Lemma refresh_session t net : preserves session (refresh_access_token cfg t net).
Proof. unfold refresh_access_token. frame. Qed.

Lemma refresh_store t net : preserves store (refresh_access_token cfg t net).
Proof. unfold refresh_access_token. frame. Qed.

Lemma start_oauth_store u : preserves store (start_oauth cfg str_exn u).
Proof. unfold start_oauth. frame. Qed.

Lemma start_oauth_outbox u : preserves outbox (start_oauth cfg str_exn u).
Proof. unfold start_oauth. frame. Qed.

(** Every route answers: the [except] branch catches what the body raises. *)
Lemma try_except_answers {A} (m : M A) (h : exn -> A) w :
  exists a w', try_except m (fun e => ret (h e)) w = (inr a, w').
Proof.
  unfold try_except. destruct (m w) as [[e | a] w']; eexists; eexists; reflexivity.
Qed.

(** ** The validation, in the order the function runs it *)

Lemma session_get_nonce w :
  session_get cfg "oauth_state" w = (inr (nonce w), w).
Proof. reflexivity. Qed.

Lemma checks_state req c s p net now w :
  callback_fields req = Some (c, s, p) ->
  py_ne s (nonce w) = true ->
  callback req net now w = (inr (Some (state_error req)), w).
Proof.
  intros Hf Hs. destruct req as [args | args | [[] |]]; simpl in Hf; try discriminate;
    injection Hf as <- <- <-;
    unfold handle_callback, try_except, bind, request_json, py_get, ret;
    rewrite session_get_nonce, Hs; reflexivity.
Qed.

Lemma checks_fields req c s p net now w :
  callback_fields req = Some (c, s, p) ->
  py_ne s (nonce w) = false ->
  py_not c || py_not s || py_not p = true ->
  callback req net now w = (inr (Some (missing_error req)), w).
Proof.
  intros Hf Hs Hm. destruct req as [args | args | [[] |]]; simpl in Hf; try discriminate;
    injection Hf as <- <- <-;
    unfold handle_callback, try_except, bind, request_json, py_get, ret;
    rewrite session_get_nonce, Hs, Hm; reflexivity.
Qed.

(** Once the state has passed, no path of the function answers with the
    state error. *)
Lemma passed_state_not_state_error req c s p net now w :
  callback_fields req = Some (c, s, p) ->
  py_ne s (nonce w) = false ->
  fst (callback req net now w) <> inr (Some (state_error req)).
Proof.
  intros Hf Hs. destruct req as [args | args | [[] |]]; simpl in Hf; try discriminate;
    injection Hf as <- <- <-;
    unfold handle_callback, try_except, bind, request_json, py_get, ret;
    rewrite session_get_nonce, Hs.
  - destruct (_ || _); simpl; discriminate.
  - destruct (_ || _); [simpl; discriminate |].
    unfold requests_post. destruct (net _) as [msg | st [j |]]; simpl; try (discriminate).
    + destruct (negb _); simpl; [discriminate |].
      unfold py_get. destruct j; simpl; try (discriminate).
      destruct (query_first _ _ _) as [[e | r] w1]; simpl; [discriminate |].
      destruct (db_commit _ _ _ _) as [[e | r'] w2]; simpl; discriminate.
    + destruct (negb _); simpl; discriminate.
Qed.

(** ** The state check *)

(** C1.  A GET or POST callback whose state is not, byte for byte, the nonce
    bound in the session is answered 400 with the state error and changes
    nothing; this covers a state sent when no nonce is bound.  When no nonce
    is bound, no callback succeeds: the answer is 400, or 500 when the POST
    body is not a JSON object and the fields cannot be read at all. *)
Theorem state_mismatch_rejected req net now w :
  (forall c s p,
      callback_fields req = Some (c, s, p) ->
      s <> of_session (nonce w) ->
      callback req net now w = (inr (Some (state_error req)), w))
  /\ (nonce w = None ->
      method req <> "HEAD" ->
      exists body status,
        callback req net now w = (inr (Some (Jsonify body status)), w)
        /\ (status = 400 \/ status = 500)
        /\ (callback_fields req <> None -> status = 400)).
Proof.
  split.
  - intros c s p Hf Hs. apply (checks_state _ c s p); [assumption |].
    apply py_ne_true. assumption.
  - intros Hn Hm.
    destruct (callback_fields req) as [[[c s] p] |] eqn:Hf.
    + destruct (py_ne s (nonce w)) eqn:Hs.
      * eexists _, 400. rewrite (checks_state _ c s p) by assumption.
        unfold state_error. auto.
      * assert (s = PNone) as -> by (apply py_ne_false in Hs; rewrite Hn in Hs; exact Hs).
        eexists _, 400. rewrite (checks_fields _ c PNone p); try assumption.
        -- unfold missing_error. auto.
        -- simpl. apply orb_true_iff. left. apply orb_true_r.
    + destruct req as [args | args | [v |]]; simpl in Hf, Hm; try congruence.
      * destruct v; try discriminate; eexists _, 500; (split; [reflexivity | split; [auto | congruence]]).
      * eexists _, 500. split; [reflexivity | split; [auto | congruence]].
Qed.

(** C2.  State validation comes first, the required fields second, the token
    exchange last: a wrong state is answered with the state error whatever
    fields are missing, a right state with a missing field is answered with
    the missing-field error, the two answers differ, and a call to the
    provider is only made when both checks have passed. *)
Theorem validation_order req net now w :
  (forall c s p,
      callback_fields req = Some (c, s, p) ->
      (s <> of_session (nonce w) ->
       callback req net now w = (inr (Some (state_error req)), w))
      /\ (s = of_session (nonce w) ->
          py_not c || py_not s || py_not p = true ->
          callback req net now w = (inr (Some (missing_error req)), w)))
  /\ state_error req <> missing_error req
  /\ (outbox (snd (callback req net now w)) <> outbox w ->
      exists c s p,
        callback_fields req = Some (c, s, p)
        /\ s = of_session (nonce w)
        /\ py_not c || py_not s || py_not p = false).
Proof.
  split; [| split].
  - intros c s p Hf. split.
    + intros Hs. apply (checks_state _ c s p); [assumption |]. apply py_ne_true, Hs.
    + intros Hs Hm. apply (checks_fields _ c s p); try assumption. apply py_ne_false, Hs.
  - destruct req; intros [=].
  - intros Hout.
    destruct (callback_fields req) as [[[c s] p] |] eqn:Hf.
    + exists c, s, p. split; [reflexivity |].
      destruct (py_ne s (nonce w)) eqn:Hs.
      * rewrite (checks_state _ c s p) in Hout by assumption. contradiction.
      * split; [apply py_ne_false, Hs |].
        destruct (py_not c || py_not s || py_not p) eqn:Hm; [| reflexivity].
        rewrite (checks_fields _ c s p) in Hout by assumption. contradiction.
    + exfalso. apply Hout.
      destruct req as [args | args | [v |]]; simpl in Hf; try discriminate; try reflexivity.
      destruct v; try discriminate; reflexivity.
Qed.

(** ** The GET shape *)

(** C6.  A GET callback that passes both checks is answered 200 with the
    authorization code it carried, and the world after it is the world
    before it: no call to the provider, no change to the table or to the
    session. *)
Theorem get_check_is_read_only args net now w c s p :
  callback_fields (GET args) = Some (c, s, p) ->
  s = of_session (nonce w) ->
  py_not c || py_not s || py_not p = false ->
  callback (GET args) net now w =
    (inr (Some (Jsonify [("message", PStr "GET request successful"); ("auth_code", c)] 200)), w).
Proof.
  intros [= <- <- <-] Hs Hm. apply py_ne_false in Hs.
  unfold handle_callback, try_except, bind, ret.
  rewrite session_get_nonce, Hs, Hm. reflexivity.
Qed.

(** ** The exchange *)

Lemma find_none_existsb {A} (f : A -> bool) l : find f l = None -> existsb f l = false.
Proof.
  induction l as [| a l IH]; simpl; [reflexivity |].
  destruct (f a); [discriminate | exact IH].
Qed.

(** The answer of a POST that passed both checks, case by case on what the
    provider returned. *)
Lemma exchange_failed body c s p net now w st j :
  callback_fields (POST body) = Some (c, s, p) ->
  py_ne s (nonce w) = false ->
  py_not c || py_not s || py_not p = false ->
  net (code_call cfg c) = NetResp st j ->
  st <> 200 ->
  callback (POST body) net now w =
    (inr (Some (match j with
                | Some payload =>
                    Jsonify [("error", PStr "Failed to exchange authorization code");
                             ("details", payload)] 400
                | None => internal_error str_exn JSONDecodeError
                end)),
     sent (code_call cfg c) w).
Proof.
  intros Hf Hs Hm Hnet Hst. destruct body as [[] |]; try discriminate.
  injection Hf as <- <- <-.
  unfold handle_callback, try_except, bind, request_json, py_get, ret.
  rewrite session_get_nonce, Hs, Hm. unfold requests_post. rewrite Hnet. simpl.
  apply Z.eqb_neq in Hst. rewrite Hst. simpl.
  destruct j; reflexivity.
Qed.

Lemma exchange_refused body c s p net now w td :
  callback_fields (POST body) = Some (c, s, p) ->
  py_ne s (nonce w) = false ->
  py_not c || py_not s || py_not p = false ->
  net (code_call cfg c) = NetResp 200 (Some (PDict td)) ->
  default PNone (dict_get td "refresh_token") = PNone ->
  callback (POST body) net now w =
    (inr (Some (internal_error str_exn
                  (match adapt ColPartner p with
                   | Some _ => IntegrityError ColToken
                   | None => DataError ColPartner p
                   end))),
     sent (code_call cfg c) w).
Proof.
  intros Hf Hs Hm Hnet Ht. destruct body as [[] |]; try discriminate.
  injection Hf as <- <- <-.
  assert (Hp : py_not (default PNone (dict_get d "selling_partner_id")) = false).
  { apply orb_false_iff in Hm. apply Hm. }
  unfold handle_callback, try_except, bind, request_json, py_get, ret.
  rewrite session_get_nonce, Hs, Hm. unfold requests_post. rewrite Hnet. simpl.
  rewrite Ht. unfold query_first, db_commit, bind_text, bind, raise.
  destruct (default PNone (dict_get d "selling_partner_id")) eqn:Ep; try discriminate;
    destruct (adapt ColPartner _) eqn:Ea; try reflexivity;
    destruct (find _ _); simpl; rewrite ?Ea; reflexivity.
Qed.

Lemma exchange_stored body c s p net now w td v q t :
  callback_fields (POST body) = Some (c, s, p) ->
  py_ne s (nonce w) = false ->
  py_not c || py_not s || py_not p = false ->
  net (code_call cfg c) = NetResp 200 (Some (PDict td)) ->
  default PNone (dict_get td "refresh_token") = v ->
  v <> PNone ->
  adapt ColPartner p = Some q ->
  adapt ColToken v = Some t ->
  callback (POST body) net now w =
    (inr (Some (Jsonify [("message", PStr "Authorization successful")] 200)),
     upsert q t now (sent (code_call cfg c) w)).
Proof.
  intros Hf Hs Hm Hnet Hv Hnn Hq Ht. destruct body as [[] |]; try discriminate.
  injection Hf as <- <- <-.
  assert (Hp : py_not (default PNone (dict_get d "selling_partner_id")) = false).
  { apply orb_false_iff in Hm. apply Hm. }
  unfold handle_callback, try_except, bind, request_json, py_get, ret.
  rewrite session_get_nonce, Hs, Hm. unfold requests_post. rewrite Hnet. simpl.
  rewrite Hv. unfold query_first, db_commit, bind_text, bind, ret, upsert, sent.
  destruct (default PNone (dict_get d "selling_partner_id")) eqn:Ep; try discriminate;
    rewrite Hq; simpl;
    destruct (find (has_partner q) (sellers w)) eqn:Ef; simpl;
    destruct v; try contradiction; rewrite ?Hq, Ht; simpl;
    rewrite ?(find_none_existsb _ _ Ef); reflexivity.
Qed.

(** *** The table under [upsert] *)

Lemma has_partner_eq q r : has_partner q r = true <-> selling_partner_id r = q.
Proof. apply String.eqb_eq. Qed.

Lemma set_token_partner i t r : selling_partner_id (set_token i t r) = selling_partner_id r.
Proof. unfold set_token. destruct (id r =? i); reflexivity. Qed.

Lemma set_token_created i t r : created_at (set_token i t r) = created_at r.
Proof. unfold set_token. destruct (id r =? i); reflexivity. Qed.

Lemma set_token_own t r : refresh_token (set_token (id r) t r) = t.
Proof. unfold set_token. rewrite Z.eqb_refl. reflexivity. Qed.

Lemma partners_set_token i t l :
  map selling_partner_id (map (set_token i t) l) = map selling_partner_id l.
Proof.
  induction l as [| a l IH]; simpl; [reflexivity |].
  rewrite set_token_partner, IH. reflexivity.
Qed.

Lemma filter_set_token q i t l :
  List.filter (has_partner q) (map (set_token i t) l)
  = map (set_token i t) (List.filter (has_partner q) l).
Proof.
  induction l as [| a l IH]; simpl; [reflexivity |].
  unfold has_partner at 1. rewrite set_token_partner. fold (has_partner q a).
  destruct (has_partner q a); simpl; rewrite IH; reflexivity.
Qed.

Lemma absent_no_records q l :
  ~ In q (map selling_partner_id l) -> List.filter (has_partner q) l = [].
Proof.
  induction l as [| a l IH]; simpl; [reflexivity |]. intros Hq.
  destruct (has_partner q a) eqn:Ha.
  - apply has_partner_eq in Ha. tauto.
  - apply IH. tauto.
Qed.

Lemma find_none_absent q l :
  find (has_partner q) l = None -> ~ In q (map selling_partner_id l).
Proof.
  induction l as [| a l IH]; simpl; [tauto |].
  destruct (has_partner q a) eqn:Ha; [discriminate |].
  intros Hf [Hq | Hq]; [| exact (IH Hf Hq)].
  apply has_partner_eq in Hq. congruence.
Qed.

Lemma found_is_the_record q l r :
  List.NoDup (map selling_partner_id l) ->
  find (has_partner q) l = Some r ->
  List.filter (has_partner q) l = [r].
Proof.
  induction l as [| a l IH]; simpl; [discriminate |].
  intros Hnd Hf. apply NoDup_cons_iff in Hnd as [Ha Hnd].
  destruct (has_partner q a) eqn:Hq.
  - injection Hf as <-. apply has_partner_eq in Hq. subst q.
    rewrite (absent_no_records _ _ Ha). reflexivity.
  - apply IH; assumption.
Qed.

Lemma filter_snoc q l r :
  List.filter (has_partner q) (l ++ [r])
  = (List.filter (has_partner q) l ++ (if has_partner q r then [r] else []))%list.
Proof.
  induction l as [| a l IH]; simpl; [reflexivity |].
  rewrite IH. destruct (has_partner q a); reflexivity.
Qed.

Lemma nodup_snoc (l : list string) q :
  List.NoDup l -> ~ In q l -> List.NoDup (l ++ [q])%list.
Proof.
  induction l as [| a l IH]; simpl; intros Hnd Hq.
  - constructor; [intros [] | constructor].
  - apply NoDup_cons_iff in Hnd as [Ha Hnd]. apply NoDup_cons_iff. split.
    + rewrite in_app_iff. simpl. intros [H | [H | []]]; [tauto | subst; tauto].
    + apply IH; tauto.
Qed.

Lemma upsert_unique q t now w : unique_partners w -> unique_partners (upsert q t now w).
Proof.
  unfold unique_partners, upsert. intros Hnd.
  destruct (find (has_partner q) (sellers w)) eqn:Ef; simpl.
  - rewrite partners_set_token. assumption.
  - rewrite map_app. simpl. apply nodup_snoc; [assumption |].
    apply find_none_absent. assumption.
Qed.

(** After [upsert] the partner has one row; it carries the new token, and the
    creation time of the row that was there, or [now] if there was none. *)
Lemma upsert_record q t now w :
  unique_partners w ->
  exists row,
    records_of q (upsert q t now w) = [row]
    /\ refresh_token row = t
    /\ (forall old, records_of q w = [old] ->
        created_at row = created_at old /\ id row = id old)
    /\ (records_of q w = [] -> created_at row = now).
Proof.
  unfold unique_partners, records_of, upsert. intros Hnd.
  destruct (find (has_partner q) (sellers w)) as [r |] eqn:Ef; simpl.
  - pose proof (found_is_the_record _ _ _ Hnd Ef) as Hr.
    exists (set_token (id r) t r). rewrite filter_set_token, Hr. simpl.
    split; [reflexivity |]. split; [apply set_token_own |]. split.
    + intros old [= <-]. split; [apply set_token_created |].
      unfold set_token. rewrite Z.eqb_refl. reflexivity.
    + discriminate.
  - pose proof (absent_no_records _ _ (find_none_absent _ _ Ef)) as Hr.
    exists (Seller (next_id w) q t now). rewrite filter_snoc, Hr. simpl.
    unfold has_partner. simpl. rewrite String.eqb_refl.
    split; [reflexivity |]. split; [reflexivity |]. split; [discriminate | reflexivity].
Qed.

(** C3.  Two POST callbacks for one partner, each passing the checks and each
    answered 200 by the provider with a refresh token, for a partner id and
    tokens the driver stores as they are: both are answered 200, and the
    table then holds one row for the partner, with the second token and with
    the creation time the row had after the first exchange (the time of the
    first exchange when the partner was new). *)
Theorem second_exchange_updates_in_place
    w p t1 t2 body1 body2 c1 c2 s1 s2 net1 net2 now1 now2 td1 td2 :
  unique_partners w ->
  callback_fields (POST body1) = Some (c1, s1, PStr p) ->
  callback_fields (POST body2) = Some (c2, s2, PStr p) ->
  s1 = of_session (nonce w) ->
  s2 = of_session (nonce w) ->
  py_not c1 || py_not s1 || py_not (PStr p) = false ->
  py_not c2 || py_not s2 || py_not (PStr p) = false ->
  net1 (code_call cfg c1) = NetResp 200 (Some (PDict td1)) ->
  net2 (code_call cfg c2) = NetResp 200 (Some (PDict td2)) ->
  dict_get td1 "refresh_token" = Some (PStr t1) ->
  dict_get td2 "refresh_token" = Some (PStr t2) ->
  adapt ColPartner (PStr p) = Some p ->
  adapt ColToken (PStr t1) = Some t1 ->
  adapt ColToken (PStr t2) = Some t2 ->
  exists w1 w2 row1 row2,
    callback (POST body1) net1 now1 w =
      (inr (Some (Jsonify [("message", PStr "Authorization successful")] 200)), w1)
    /\ callback (POST body2) net2 now2 w1 =
      (inr (Some (Jsonify [("message", PStr "Authorization successful")] 200)), w2)
    /\ records_of p w1 = [row1]
    /\ refresh_token row1 = t1
    /\ (records_of p w = [] -> created_at row1 = now1)
    /\ records_of p w2 = [row2]
    /\ refresh_token row2 = t2
    /\ created_at row2 = created_at row1
    /\ id row2 = id row1
    /\ unique_partners w2.
Proof.
  intros Hu Hf1 Hf2 Hs1 Hs2 Hm1 Hm2 Hn1 Hn2 Ht1 Ht2 Hp Ha1 Ha2.
  apply py_ne_false in Hs1, Hs2.
  set (wa := sent (code_call cfg c1) w).
  set (w1 := upsert p t1 now1 wa).
  set (wb := sent (code_call cfg c2) w1).
  set (w2 := upsert p t2 now2 wb).
  assert (Hua : unique_partners wa) by exact Hu.
  assert (Hu1 : unique_partners w1) by (apply upsert_unique; exact Hua).
  assert (Hub : unique_partners wb) by exact Hu1.
  destruct (upsert_record p t1 now1 wa Hua) as (row1 & Hr1 & Htok1 & _ & Hnew1).
  destruct (upsert_record p t2 now2 wb Hub) as (row2 & Hr2 & Htok2 & Hold2 & _).
  exists w1, w2, row1, row2.
  split.
  { apply (exchange_stored _ c1 s1 (PStr p) _ _ _ td1 (PStr t1)); try assumption.
    - rewrite Ht1. reflexivity.
    - discriminate. }
  assert (Hsess : nonce w1 = nonce w).
  { unfold bound_nonce, w1, upsert. destruct (find _ _); reflexivity. }
  split.
  { apply (exchange_stored _ c2 s2 (PStr p) _ _ _ td2 (PStr t2)); try assumption.
    - rewrite Hsess. assumption.
    - rewrite Ht2. reflexivity.
    - discriminate. }
  destruct (Hold2 row1 Hr1) as [Hc Hi].
  repeat split; try assumption.
  apply upsert_unique. exact Hub.
Qed.

(** C4.  A POST callback that passed both checks and whose code the provider
    answers with a status other than 200: the call is made once, the table
    and the session are as before, and when the provider's body is JSON the
    answer is 400 with that body under [details].  (A body that is not JSON
    makes [.json()] raise: the answer is then the 500 of the [except]
    branch, with the table still unchanged.) *)
Theorem upstream_failure_passthrough body c s p net now w st j :
  callback_fields (POST body) = Some (c, s, p) ->
  s = of_session (nonce w) ->
  py_not c || py_not s || py_not p = false ->
  net (code_call cfg c) = NetResp st j ->
  st <> 200 ->
  exists r w',
    callback (POST body) net now w = (inr (Some r), w')
    /\ store w' = store w
    /\ session w' = session w
    /\ outbox w' = code_call cfg c :: outbox w
    /\ (forall payload,
          j = Some payload ->
          r = Jsonify [("error", PStr "Failed to exchange authorization code");
                       ("details", payload)] 400)
    /\ (j = None -> r = internal_error str_exn JSONDecodeError).
Proof.
  intros Hf Hs Hm Hnet Hst. apply py_ne_false in Hs.
  eexists _, _. split; [apply (exchange_failed _ c s p _ _ _ st j); assumption |].
  repeat split.
  - intros payload ->. reflexivity.
  - intros ->. reflexivity.
Qed.

(** C5, as the code has it.  A POST callback that passed both checks and whose
    code the provider answers 200 with a JSON object without [refresh_token]
    (or with [null] there): [refresh_token] is [None], the column is
    [nullable=False], so the commit raises; the answer is the 500 of the
    [except] branch and the table is as before.  (The error is the driver's
    when it refuses the partner id before the commit is reached.) *)
Theorem missing_refresh_token_is_refused body c s p net now w td :
  callback_fields (POST body) = Some (c, s, p) ->
  s = of_session (nonce w) ->
  py_not c || py_not s || py_not p = false ->
  net (code_call cfg c) = NetResp 200 (Some (PDict td)) ->
  default PNone (dict_get td "refresh_token") = PNone ->
  exists e w',
    callback (POST body) net now w = (inr (Some (internal_error str_exn e)), w')
    /\ store w' = store w
    /\ session w' = session w
    /\ (e = IntegrityError ColToken \/ e = DataError ColPartner p).
Proof.
  intros Hf Hs Hm Hnet Ht. apply py_ne_false in Hs.
  eexists _, _. split; [apply (exchange_refused _ c s p _ _ _ td); assumption |].
  repeat split. destruct (adapt ColPartner p); auto.
Qed.

(** *** The uniqueness of partner ids is an invariant *)

Lemma keeps_ret {A} P (a : A) : keeps P (ret a).
Proof. intros w H. exact H. Qed.

Lemma keeps_bind {A B} P (m : M A) (k : A -> M B) :
  keeps P m -> (forall a, keeps P (k a)) -> keeps P (bind m k).
Proof.
  intros Hm Hk w Hw. unfold bind. specialize (Hm w Hw).
  destruct (m w) as [[e | a] w1]; simpl in *; [assumption |].
  apply Hk. assumption.
Qed.

Lemma keeps_try {A} P (m : M A) (h : exn -> M A) :
  keeps P m -> (forall e, keeps P (h e)) -> keeps P (try_except m h).
Proof.
  intros Hm Hh w Hw. unfold try_except. specialize (Hm w Hw).
  destruct (m w) as [[e | a] w1]; simpl in *; [| assumption].
  apply Hh. assumption.
Qed.

Lemma preserves_keeps_unique {A} (m : M A) : preserves store m -> keeps unique_partners m.
Proof.
  intros Hm w Hw. specialize (Hm w). unfold store in Hm. injection Hm as Hs _.
  unfold unique_partners. rewrite Hs. exact Hw.
Qed.

Lemma existsb_false_absent q l :
  existsb (has_partner q) l = false -> ~ In q (map selling_partner_id l).
Proof.
  induction l as [| a l IH]; simpl; [tauto |].
  intros H. apply orb_false_iff in H as [Ha Hl].
  intros [Hq | Hq]; [| exact (IH Hl Hq)].
  apply has_partner_eq in Hq. congruence.
Qed.

Lemma db_commit_unique now c : keeps unique_partners (db_commit adapt now c).
Proof.
  destruct c as [row v | partner v]; unfold db_commit.
  - apply keeps_bind; [apply preserves_keeps_unique; auto with frame |].
    intros t w Hw. unfold unique_partners. simpl. rewrite partners_set_token. exact Hw.
  - apply keeps_bind; [apply preserves_keeps_unique; auto with frame | intros q].
    apply keeps_bind; [apply preserves_keeps_unique; auto with frame | intros t w Hw].
    destruct (existsb _ _) eqn:Ex; simpl; [exact Hw |].
    unfold unique_partners. simpl. rewrite map_app. simpl.
    apply nodup_snoc; [exact Hw |]. apply existsb_false_absent. exact Ex.
Qed.

Lemma callback_unique req net now : keeps unique_partners (callback req net now).
Proof.
  unfold handle_callback.
  repeat first
    [ apply keeps_ret
    | apply db_commit_unique
    | solve [apply preserves_keeps_unique; auto with frame]
    | apply keeps_try; [| intros ?]
    | apply keeps_bind; [| intros ?]
    | match goal with
      | |- keeps _ (if ?b then _ else _) => destruct b
      | |- keeps _ (match ?x with _ => _ end) => destruct x
      end ].
Qed.

(** ** The start of the flow *)

Lemma split_on_first sep a rest :
  contains sep a = false ->
  split_on sep (a +:+ String sep rest) = a :: split_on sep rest.
Proof.
  induction a as [| c a IH]; simpl; intros Ha.
  - rewrite Ascii.eqb_refl. reflexivity.
  - apply orb_false_iff in Ha as [Hc Ha]. rewrite Hc, (IH Ha). reflexivity.
Qed.

Lemma split_on_last sep a : contains sep a = false -> split_on sep a = [a].
Proof.
  induction a as [| c a IH]; simpl; intros Ha; [reflexivity |].
  apply orb_false_iff in Ha as [Hc Ha]. rewrite Hc, (IH Ha). reflexivity.
Qed.

(** The parameters read back from the URL that [start_oauth] builds, when the
    application id and the nonce hold no [&]. *)
Lemma authorize_url_params app state redirect_uri :
  contains "&" app = false ->
  contains "&" state = false ->
  query_params (url_with_query authorize_endpoint
                  [("application_id", app); ("state", state); ("version", "beta");
                   ("redirect_uri", redirect_uri)])
  = ("application_id", app) :: ("state", state) :: ("version", "beta")
      :: map (cut "=") (split_on "&" ("redirect_uri=" +:+ redirect_uri)).
Proof.
  intros Ha Hs. unfold query_params.
  change (snd (cut "?" _))
    with (("application_id=" +:+ app) +:+
          String "&" (("state=" +:+ state) +:+
                      String "&" ("version=beta" +:+
                                  String "&" ("redirect_uri=" +:+ redirect_uri)))).
  rewrite (split_on_first "&" ("application_id=" +:+ app)) by exact Ha.
  rewrite (split_on_first "&" ("state=" +:+ state)) by exact Hs.
  rewrite (split_on_first "&" "version=beta") by reflexivity.
  reflexivity.
Qed.

(** C7.  [start_oauth] with a usable session binds the generated nonce under
    [oauth_state] and redirects to the provider's authorization endpoint
    with the query [application_id], [state], [version=beta] and
    [redirect_uri], the state being that same nonce; no other session key,
    nothing in the table and no call is touched.  Without a secret key the
    session write raises and the answer is the 500 of the [except] branch. *)
Theorem start_oauth_sends_the_bound_nonce uuid4 w :
  (unset (secret_key cfg) = false ->
   exists w',
     start_oauth cfg str_exn uuid4 w =
       (inr (Redirect (url_with_query authorize_endpoint
                         [("application_id", LWA_APP_ID cfg);
                          ("state", generate_state uuid4);
                          ("version", "beta");
                          ("redirect_uri", REDIRECT_URI cfg)])), w')
     /\ nonce w' = Some (generate_state uuid4)
     /\ (forall k, k <> "oauth_state" -> session w' !! k = session w !! k)
     /\ store w' = store w
     /\ outbox w' = outbox w)
  /\ (unset (secret_key cfg) = true ->
      start_oauth cfg str_exn uuid4 w = (inr (internal_error str_exn SessionUnavailable), w))
  /\ (contains "&" (LWA_APP_ID cfg) = false ->
      contains "&" (generate_state uuid4) = false ->
      forall url w',
        start_oauth cfg str_exn uuid4 w = (inr (Redirect url), w') ->
        param "state" (query_params url) = nonce w'
        /\ param "application_id" (query_params url) = Some (LWA_APP_ID cfg)
        /\ param "version" (query_params url) = Some "beta"
        /\ (contains "&" (REDIRECT_URI cfg) = false ->
            param "redirect_uri" (query_params url) = Some (REDIRECT_URI cfg))).
Proof.
  unfold start_oauth, try_except, bind, session_set, ret, bound_nonce.
  split; [| split].
  - intros Hk. rewrite Hk.
    eexists. split; [reflexivity |].
    split; [apply lookup_insert_eq |].
    split; [| split; reflexivity].
    intros k Hne. apply lookup_insert_ne. congruence.
  - intros Hk. rewrite Hk. reflexivity.
  - intros Ha Hs url w'. destruct (unset (secret_key cfg)) eqn:Hk; [discriminate |].
    intros [= Hurl <-].
    assert (Hq : url = url_with_query authorize_endpoint
                         [("application_id", LWA_APP_ID cfg);
                          ("state", generate_state uuid4);
                          ("version", "beta"); ("redirect_uri", REDIRECT_URI cfg)])
      by (rewrite <- Hurl; reflexivity).
    rewrite Hq, authorize_url_params by assumption.
    split; [simpl; symmetry; apply lookup_insert_eq |].
    split; [reflexivity |]. split; [reflexivity |].
    intros Hr. rewrite (split_on_last "&" ("redirect_uri=" +:+ REDIRECT_URI cfg)) by exact Hr.
    reflexivity.
Qed.

(** ** The refresh of the access token *)

(** C9.  [refresh_access_token] makes one call and always returns: the
    [access_token] field of the JSON object when the provider answers 200
    ([None] when the field is absent), and [None] on any other status and
    when [requests.post] raises; a result other than [None] is therefore the
    field of a 200 answer.  The table and the session are as before. *)
Theorem refresh_access_token_reads_through t net w :
  let r := refresh_access_token cfg t net w in
  (exists v, fst r = inr v)
  /\ (forall d,
        net (refresh_call cfg t) = NetResp 200 (Some (PDict d)) ->
        fst r = inr (default PNone (dict_get d "access_token")))
  /\ (forall st j,
        net (refresh_call cfg t) = NetResp st j -> st <> 200 -> fst r = inr PNone)
  /\ (forall msg, net (refresh_call cfg t) = NetRaise msg -> fst r = inr PNone)
  /\ (forall v,
        fst r = inr v -> v <> PNone ->
        exists d, net (refresh_call cfg t) = NetResp 200 (Some (PDict d))
                  /\ dict_get d "access_token" = Some v)
  /\ snd r = sent (refresh_call cfg t) w
  /\ store (snd r) = store w
  /\ session (snd r) = session w.
Proof.
  intros r. subst r.
  unfold refresh_access_token, try_except, bind, requests_post, response_json, py_get, ret, raise.
  destruct (net (refresh_call cfg t)) as [msg | st [j |]] eqn:Hnet; simpl.
  - repeat split; eauto; try discriminate. intros v [= <-] Hv. contradiction.
  - destruct (st =? 200) eqn:Hst; simpl.
    + apply Z.eqb_eq in Hst. subst st.
      destruct j; simpl; repeat split; eauto; try discriminate;
        try (intros d' [= <-]; reflexivity);
        try (intros st j' [= <- _] Hne; contradiction);
        try (intros v [= <-] Hv; contradiction).
      intros v [= <-] Hv. exists d. split; [reflexivity |].
      destruct (dict_get d "access_token"); simpl in *; [reflexivity | contradiction].
    + apply Z.eqb_neq in Hst.
      repeat split; eauto; try discriminate.
      * intros d [= -> _]. contradiction.
      * intros v [= <-] Hv. contradiction.
  - destruct (st =? 200) eqn:Hst; simpl; repeat split; eauto; try discriminate;
      intros v [= <-] Hv; contradiction.
Qed.

(** ** The nonce is not consumed *)

(** C10.  [handle_callback] leaves the session as it found it, whatever the
    request and the outcome, so the nonce stays bound: a callback whose
    state passed the check passes it again when replayed on the world the
    first call left, and is never answered with the state error.
    [refresh_access_token] does not write the session either. *)
Theorem nonce_survives_callback req net now w :
  let w' := snd (callback req net now w) in
  session w' = session w
  /\ nonce w' = nonce w
  /\ (forall c s p net' now',
        callback_fields req = Some (c, s, p) ->
        py_ne s (nonce w) = false ->
        py_ne s (nonce w') = false
        /\ fst (callback req net' now' w') <> inr (Some (state_error req)))
  /\ (forall t net', session (snd (refresh_access_token cfg t net' w)) = session w).
Proof.
  intros w'.
  assert (Hsess : session w' = session w) by apply callback_session.
  assert (Hn : nonce w' = nonce w) by (unfold bound_nonce; rewrite Hsess; reflexivity).
  repeat split; try assumption.
  - rewrite Hn. assumption.
  - apply (passed_state_not_state_error _ c s p); [assumption |]. rewrite Hn. assumption.
  - intros t net'. apply refresh_session.
Qed.

(** * Further properties of the routes *)

(** ** The remaining paths of the exchange *)

Lemma exchange_raised body c s p net now w msg :
  callback_fields (POST body) = Some (c, s, p) ->
  py_ne s (nonce w) = false ->
  py_not c || py_not s || py_not p = false ->
  net (code_call cfg c) = NetRaise msg ->
  callback (POST body) net now w =
    (inr (Some (internal_error str_exn (RequestException msg))), sent (code_call cfg c) w).
Proof.
  intros Hf Hs Hm Hnet. destruct body as [[] |]; try discriminate.
  injection Hf as <- <- <-.
  unfold handle_callback, try_except, bind, request_json, py_get, ret.
  rewrite session_get_nonce, Hs, Hm. unfold requests_post. rewrite Hnet. reflexivity.
Qed.

Lemma exchange_undecodable body c s p net now w j :
  callback_fields (POST body) = Some (c, s, p) ->
  py_ne s (nonce w) = false ->
  py_not c || py_not s || py_not p = false ->
  net (code_call cfg c) = NetResp 200 j ->
  (forall td, j <> Some (PDict td)) ->
  callback (POST body) net now w =
    (inr (Some (internal_error str_exn
                  (match j with
                   | Some v => AttributeError v
                   | None => JSONDecodeError
                   end))),
     sent (code_call cfg c) w).
Proof.
  intros Hf Hs Hm Hnet Hj. destruct body as [[] |]; try discriminate.
  injection Hf as <- <- <-.
  unfold handle_callback, try_except, bind, request_json, py_get, ret.
  rewrite session_get_nonce, Hs, Hm. unfold requests_post. rewrite Hnet. simpl.
  destruct j as [[] |]; try reflexivity. exfalso. eapply Hj. reflexivity.
Qed.

Lemma exchange_driver_refused body c s p net now w td v :
  callback_fields (POST body) = Some (c, s, p) ->
  py_ne s (nonce w) = false ->
  py_not c || py_not s || py_not p = false ->
  net (code_call cfg c) = NetResp 200 (Some (PDict td)) ->
  default PNone (dict_get td "refresh_token") = v ->
  v <> PNone ->
  adapt ColPartner p = None \/ adapt ColToken v = None ->
  callback (POST body) net now w =
    (inr (Some (internal_error str_exn
                  (match adapt ColPartner p with
                   | Some _ => DataError ColToken v
                   | None => DataError ColPartner p
                   end))),
     sent (code_call cfg c) w).
Proof.
  intros Hf Hs Hm Hnet Hv Hnn Href. destruct body as [[] |]; try discriminate.
  injection Hf as <- <- <-.
  assert (Hp : py_not (default PNone (dict_get d "selling_partner_id")) = false).
  { apply orb_false_iff in Hm. apply Hm. }
  unfold handle_callback, try_except, bind, request_json, py_get, ret.
  rewrite session_get_nonce, Hs, Hm. unfold requests_post. rewrite Hnet. simpl.
  rewrite Hv. unfold query_first, db_commit, bind_text, bind, ret, raise.
  destruct (default PNone (dict_get d "selling_partner_id")) eqn:Ep; try discriminate;
    destruct (adapt ColPartner _) as [q |] eqn:Eq; try reflexivity;
    (destruct Href as [Href | Href]; [discriminate |]);
    destruct (find _ _); simpl;
    destruct v; try contradiction; rewrite ?Eq, Href; reflexivity.
Qed.

(** A GET that passes both checks (the equation behind the read-only
    check). *)
Lemma get_passes args net now w :
  py_ne (args_get args "state") (nonce w) = false ->
  py_not (args_get args "spapi_oauth_code") || py_not (args_get args "state")
  || py_not (args_get args "selling_partner_id") = false ->
  callback (GET args) net now w =
    (inr (Some (Jsonify [("message", PStr "GET request successful");
                         ("auth_code", args_get args "spapi_oauth_code")] 200)), w).
Proof.
  intros Hs Hm. unfold handle_callback, try_except, bind, ret.
  rewrite session_get_nonce, Hs, Hm. reflexivity.
Qed.

(** Every run of [handle_callback] is one of five: no answer (HEAD), an error
    answered before anything was done, the 200 of the GET shape, an error
    after the one call to the provider, or the completed exchange. *)
Lemma callback_cases req net now w :
  (callback req net now w = (inr None, w) /\ method req = "HEAD")
  \/ (exists msg status,
        callback req net now w = (inr (Some (Jsonify [("error", PStr msg)] status)), w)
        /\ (status = 400 \/ status = 500))
  \/ (exists c s p,
        callback_fields req = Some (c, s, p) /\ method req = "GET"
        /\ callback req net now w =
           (inr (Some (Jsonify [("message", PStr "GET request successful");
                                ("auth_code", c)] 200)), w))
  \/ (exists c s p body status,
        callback_fields req = Some (c, s, p) /\ method req = "POST"
        /\ callback req net now w =
           (inr (Some (Jsonify body status)), sent (code_call cfg c) w)
        /\ (status = 400 \/ status = 500)
        /\ exists msg, dict_get body "error" = Some (PStr msg))
  \/ (exists c s p q t,
        callback_fields req = Some (c, s, p) /\ method req = "POST"
        /\ adapt ColPartner p = Some q
        /\ callback req net now w =
           (inr (Some authorized), upsert q t now (sent (code_call cfg c) w))).
Proof.
  destruct (callback_fields req) as [[[c s] p] |] eqn:Hf.
  2:{ destruct req as [args | args | [v |]]; simpl in Hf; try discriminate.
      - left. split; reflexivity.
      - right. left. destruct v; try discriminate; eexists _, 500;
          (split; [reflexivity | auto]).
      - right. left. eexists _, 500. split; [reflexivity | auto]. }
  destruct (py_ne s (nonce w)) eqn:Hs.
  { right. left. eexists _, 400. rewrite (checks_state _ c s p) by assumption.
    split; [reflexivity | auto]. }
  destruct (py_not c || py_not s || py_not p) eqn:Hm.
  { right. left. eexists _, 400. rewrite (checks_fields _ c s p) by assumption.
    split; [reflexivity | auto]. }
  destruct req as [args | args | body]; simpl in Hf; try discriminate.
  { right. right. left. exists c, s, p. injection Hf as <- <- <-.
    split; [reflexivity | split; [reflexivity |]]. apply get_passes; assumption. }
  right. right. right.
  destruct (net (code_call cfg c)) as [msg | st j] eqn:Hnet.
  { left. exists c, s, p. eexists _, 500.
    rewrite (exchange_raised _ c s p _ _ _ msg) by assumption.
    repeat split; auto. eexists. reflexivity. }
  destruct (Z.eq_dec st 200) as [-> | Hst].
  2:{ left. exists c, s, p.
      rewrite (exchange_failed _ c s p _ _ _ st j) by assumption.
      destruct j; [eexists _, 400 | eexists _, 500]; repeat split; auto; eexists; reflexivity. }
  destruct j as [[| | | | | td] |];
    try (left; exists c, s, p; eexists _, 500;
         rewrite (exchange_undecodable _ c s p _ _ _ _ Hf Hs Hm Hnet) by discriminate;
         repeat split; auto; eexists; reflexivity).
  destruct (default PNone (dict_get td "refresh_token")) as [| b | z | t0 | l | d0] eqn:Hv;
    [ left; exists c, s, p; eexists _, 500;
      rewrite (exchange_refused _ c s p _ _ _ td) by assumption;
      repeat split; auto; eexists; reflexivity | .. ];
    (destruct (adapt ColPartner p) as [q |] eqn:Eq;
     [ match goal with
       | H : default PNone _ = ?v |- _ =>
           destruct (adapt ColToken v) as [t |] eqn:Et;
           [ right; exists c, s, p, q, t;
             split; [reflexivity | split; [reflexivity | split; [exact Eq |]]];
             apply (exchange_stored _ c s p _ _ _ td v q t); try assumption; discriminate
           | left; exists c, s, p; eexists _, 500;
             rewrite (exchange_driver_refused _ c s p _ _ _ td v) by (auto; discriminate);
             repeat split; auto; eexists; reflexivity ]
       end
     | match goal with
       | H : default PNone _ = ?v |- _ =>
           left; exists c, s, p; eexists _, 500;
           rewrite (exchange_driver_refused _ c s p _ _ _ td v) by (auto; discriminate);
           repeat split; auto; eexists; reflexivity
       end ]).
Qed.

(** ** What an answer looks like *)

(** X1.  A GET or POST callback is always answered with a JSON object and
    status 200, 400 or 500; every answer other than 200 has a string under
    [error], a 200 has none.  For HEAD the function returns [None]. *)
Theorem callback_answers req net now w :
  (method req = "HEAD" -> callback req net now w = (inr None, w))
  /\ (method req <> "HEAD" ->
      exists body status,
        fst (callback req net now w) = inr (Some (Jsonify body status))
        /\ (status = 200 \/ status = 400 \/ status = 500)
        /\ (status <> 200 -> exists msg, dict_get body "error" = Some (PStr msg))
        /\ (status = 200 -> dict_get body "error" = None)).
Proof.
  split.
  - destruct req; simpl; try discriminate. reflexivity.
  - intros Hm.
    destruct (callback_cases req net now w)
      as [[_ H] | [(msg & st & E & Hst) | [(c & s & p & _ & _ & E) |
          [(c & s & p & body & st & _ & _ & E & Hst & Herr) |
           (c & s & p & q & t & _ & _ & _ & E)]]]]; [contradiction | | | |]; rewrite E.
    + exists [("error", PStr msg)], st. split; [reflexivity |].
      split; [tauto |]. split; [eexists; reflexivity |].
      intros ->. destruct Hst; discriminate.
    + eexists _, 200. split; [reflexivity |]. split; [tauto |].
      split; [congruence | reflexivity].
    + exists body, st. split; [reflexivity |]. split; [tauto |].
      split; [intros _; exact Herr |]. intros ->. destruct Hst; discriminate.
    + eexists _, 200. split; [reflexivity |]. split; [tauto |].
      split; [congruence | reflexivity].
Qed.

(** ** What a callback can change *)

Lemma upsert_outbox q t now w : outbox (upsert q t now w) = outbox w.
Proof. unfold upsert. destruct (find _ _); reflexivity. Qed.

Lemma upsert_session q t now w : session (upsert q t now w) = session w.
Proof. unfold upsert. destruct (find _ _); reflexivity. Qed.


(** X3.  No retry: a callback sends at most one request to the provider, the
    POST of the code it was given, and only the POST shape sends any; a GET
    or HEAD leaves the whole world as it was. *)
Theorem at_most_one_call req net now w :
  (outbox (snd (callback req net now w)) = outbox w
   \/ exists c s p,
        callback_fields req = Some (c, s, p)
        /\ outbox (snd (callback req net now w)) = code_call cfg c :: outbox w)
  /\ (method req <> "POST" -> snd (callback req net now w) = w).
Proof.
  destruct (callback_cases req net now w)
    as [[E _] | [(msg & st & E & _) | [(c & s & p & _ & _ & E) |
        [(c & s & p & body & st & Hf & Hm & E & _) |
         (c & s & p & q & t & Hf & Hm & _ & E)]]]]; rewrite E; simpl;
    try (split; [left; reflexivity | reflexivity]).
  - split; [right; exists c, s, p; split; [exact Hf | reflexivity] | congruence].
  - split; [| congruence]. right. exists c, s, p. split; [exact Hf |].
    rewrite upsert_outbox. reflexivity.
Qed.

(** X4.  When the provider cannot be reached ([requests.post] raises), or
    answers 200 with a body that is not a JSON object, a POST that passed
    both checks is answered 500 with the text of the exception; the call was
    made once, the table and the session are as before. *)
Theorem exchange_errors_are_internal body c s p net now w :
  callback_fields (POST body) = Some (c, s, p) ->
  s = of_session (nonce w) ->
  py_not c || py_not s || py_not p = false ->
  (forall msg,
      net (code_call cfg c) = NetRaise msg ->
      callback (POST body) net now w =
        (inr (Some (internal_error str_exn (RequestException msg))),
         sent (code_call cfg c) w))
  /\ (forall j,
        net (code_call cfg c) = NetResp 200 j ->
        (forall td, j <> Some (PDict td)) ->
        exists e,
          callback (POST body) net now w =
            (inr (Some (internal_error str_exn e)), sent (code_call cfg c) w)).
Proof.
  intros Hf Hs Hm. apply py_ne_false in Hs. split.
  - intros msg Hnet. apply (exchange_raised _ c s p); assumption.
  - intros j Hnet Hj. eexists. exact (exchange_undecodable _ c s p _ _ _ j Hf Hs Hm Hnet Hj).
Qed.

(** ** The state check at its edges *)

(** X5.  With no nonce bound, a callback that carries no state (absent, or
    [null] in the POST body) passes the comparison, [None] being equal to
    [None]; it is the required-field check that refuses it. *)
Theorem absent_state_absent_nonce req c p net now w :
  nonce w = None ->
  callback_fields req = Some (c, PNone, p) ->
  callback req net now w = (inr (Some (missing_error req)), w).
Proof.
  intros Hn Hf. apply (checks_fields _ c PNone p); [assumption | rewrite Hn; reflexivity |].
  simpl. rewrite orb_true_r. reflexivity.
Qed.

Lemma no_nonce_no_success req net now w :
  nonce w = None ->
  snd (callback req net now w) = w
  /\ forall body, fst (callback req net now w) <> inr (Some (Jsonify body 200)).
Proof.
  intros Hn. destruct (callback_fields req) as [[[c s] p] |] eqn:Hf.
  - destruct (py_ne s (nonce w)) eqn:Hs.
    + rewrite (checks_state _ c s p) by assumption. split; [reflexivity | discriminate].
    + assert (s = PNone) as -> by (apply py_ne_false in Hs; rewrite Hn in Hs; exact Hs).
      rewrite (checks_fields _ c PNone p);
        [split; [reflexivity | discriminate] | assumption | assumption |].
      simpl. rewrite orb_true_r. reflexivity.
  - destruct req as [args | args | [v |]]; simpl in Hf; try discriminate.
    + split; [reflexivity | discriminate].
    + destruct v; try discriminate; (split; [reflexivity | discriminate]).
    + split; [reflexivity | discriminate].
Qed.

(** ** The table across callbacks *)

Lemma set_token_id i t r : id (set_token i t r) = id r.
Proof. unfold set_token. destruct (id r =? i); reflexivity. Qed.

Lemma ids_set_token i t l : map id (map (set_token i t) l) = map id l.
Proof.
  induction l as [| a l IH]; simpl; [reflexivity |].
  rewrite set_token_id, IH. reflexivity.
Qed.

Lemma below_set_token n i t l :
  Forall (fun r => id r < n) l -> Forall (fun r => id r < n) (map (set_token i t) l).
Proof.
  induction 1 as [| a l Ha _ IH]; simpl; constructor; [| exact IH].
  rewrite set_token_id. exact Ha.
Qed.

Lemma below_not_in n l : Forall (fun r => id r < n) l -> ~ In n (map id l).
Proof.
  induction 1 as [| a l Ha _ IH]; simpl; [tauto |].
  intros [H | H]; [lia | exact (IH H)].
Qed.

Lemma nodup_snoc_id (l : list Z) n : List.NoDup l -> ~ In n l -> List.NoDup (l ++ [n])%list.
Proof.
  induction l as [| a l IH]; simpl; intros Hnd Hn.
  - constructor; [intros [] | constructor].
  - apply NoDup_cons_iff in Hnd as [Ha Hnd]. apply NoDup_cons_iff. split.
    + rewrite in_app_iff. simpl. intros [H | [H | []]]; [tauto | subst; tauto].
    + apply IH; tauto.
Qed.

Lemma below_snoc n l r :
  Forall (fun r => id r < n) l -> id r = n ->
  Forall (fun r => id r < n + 1) (l ++ [r])%list.
Proof.
  intros Hl Hr. induction Hl as [| a l Ha _ IH]; simpl.
  - constructor; [lia | constructor].
  - constructor; [lia | exact IH].
Qed.

(** A property of the table and its sequence that [db.session.commit()]
    maintains is maintained by every callback. *)
Lemma callback_keeps P :
  (forall w w', store w' = store w -> P w -> P w') ->
  (forall now c, keeps P (db_commit adapt now c)) ->
  forall req net now, keeps P (callback req net now).
Proof.
  intros Hst Hc req net now.
  assert (Hp : forall A (m : M A), preserves store m -> keeps P m).
  { intros A m Hm w Hw. apply (Hst w); [apply Hm | exact Hw]. }
  unfold handle_callback.
  repeat first
    [ apply keeps_ret
    | apply Hc
    | solve [apply Hp; auto with frame]
    | apply keeps_try; [| intros ?]
    | apply keeps_bind; [| intros ?]
    | match goal with
      | |- keeps _ (if ?b then _ else _) => destruct b
      | |- keeps _ (match ?x with _ => _ end) => destruct x
      end ].
Qed.

Lemma holds_row_store r w w' : store w' = store w -> holds_row r w -> holds_row r w'.
Proof. intros [= Hs _]. unfold holds_row. rewrite Hs. trivial. Qed.

Lemma keys_fresh_store w w' : store w' = store w -> keys_fresh w -> keys_fresh w'.
Proof. intros [= Hs Hn]. unfold keys_fresh. rewrite Hs, Hn. trivial. Qed.

Lemma db_commit_holds_row r now c : keeps (holds_row r) (db_commit adapt now c).
Proof.
  assert (Hp : forall A (m : M A), preserves store m -> keeps (holds_row r) m).
  { intros A m Hm w Hw. apply (holds_row_store r w); [apply Hm | exact Hw]. }
  destruct c as [row v | partner v]; unfold db_commit.
  - apply keeps_bind; [apply Hp; auto with frame |].
    intros t w (r' & Hin & Hi & Hq & Hc). exists (set_token (id row) t r'). simpl.
    rewrite set_token_id, set_token_partner, set_token_created.
    split; [apply in_map; exact Hin | auto].
  - apply keeps_bind; [apply Hp; auto with frame | intros q].
    apply keeps_bind; [apply Hp; auto with frame | intros t w Hw].
    destruct (existsb _ _); simpl; [exact Hw |].
    destruct Hw as (r' & Hin & Hrest). exists r'.
    split; [simpl; apply in_or_app; left; exact Hin | exact Hrest].
Qed.

Lemma db_commit_keys_fresh now c : keeps keys_fresh (db_commit adapt now c).
Proof.
  assert (Hp : forall A (m : M A), preserves store m -> keeps keys_fresh m).
  { intros A m Hm w Hw. apply (keys_fresh_store w); [apply Hm | exact Hw]. }
  destruct c as [row v | partner v]; unfold db_commit.
  - apply keeps_bind; [apply Hp; auto with frame |].
    intros t w [Hnd Hlt]. split; simpl.
    + rewrite ids_set_token. exact Hnd.
    + apply below_set_token. exact Hlt.
  - apply keeps_bind; [apply Hp; auto with frame | intros q].
    apply keeps_bind; [apply Hp; auto with frame | intros t w [Hnd Hlt]].
    destruct (existsb _ _); simpl; [split; assumption |].
    split; simpl.
    + rewrite map_app. simpl. apply nodup_snoc_id; [exact Hnd |].
      apply below_not_in. exact Hlt.
    + apply below_snoc; [exact Hlt | reflexivity].
Qed.

(** X6.  No callback deletes a row or rewrites its key or its creation time:
    a row of the table is still there after any callback, whatever the
    request and the provider's answer, with the same [id],
    [selling_partner_id] and [created_at]. *)
Theorem rows_survive req net now w r :
  In r (sellers w) ->
  holds_row r (snd (callback req net now w)).
Proof.
  intros Hin.
  apply (callback_keeps (holds_row r) (holds_row_store r) (db_commit_holds_row r)).
  exists r. auto.
Qed.

(** X7.  Every callback keeps the two keys of the table: partner ids stay
    distinct ([unique=True]), and ids stay distinct and below the next value
    of the sequence ([primary_key=True]). *)
Theorem callback_keeps_constraints req net now w :
  (unique_partners w -> unique_partners (snd (callback req net now w)))
  /\ (keys_fresh w -> keys_fresh (snd (callback req net now w))).
Proof.
  split.
  - apply callback_unique.
  - apply (callback_keeps keys_fresh keys_fresh_store db_commit_keys_fresh).
Qed.

Lemma same_id_same_row l r r0 :
  List.NoDup (map id l) -> In r l -> In r0 l -> id r = id r0 -> r = r0.
Proof.
  induction l as [| a l IH]; simpl; [tauto |].
  intros Hnd Hr Hr0 Hid. apply NoDup_cons_iff in Hnd as [Ha Hnd].
  destruct Hr as [<- | Hr], Hr0 as [<- | Hr0]; auto.
  - exfalso. apply Ha. rewrite Hid. apply in_map. exact Hr0.
  - exfalso. apply Ha. rewrite <- Hid. apply in_map. exact Hr.
Qed.

Lemma upsert_other q q' t now w :
  List.NoDup (map id (sellers w)) ->
  q' <> q ->
  records_of q' (upsert q t now w) = records_of q' w.
Proof.
  intros Hnd Hq. unfold records_of, upsert.
  destruct (find (has_partner q) (sellers w)) as [row |] eqn:Ef; simpl.
  - apply find_some in Ef as [Hin Hrow]. apply has_partner_eq in Hrow.
    rewrite filter_set_token.
    rewrite <- (map_id (List.filter (has_partner q') (sellers w))) at 2.
    apply map_ext_in. intros r Hr. apply filter_In in Hr as [Hr Hp].
    apply has_partner_eq in Hp. unfold set_token.
    destruct (id r =? id row) eqn:E; [| reflexivity].
    apply Z.eqb_eq in E. exfalso. apply Hq.
    rewrite (same_id_same_row _ _ _ Hnd Hr Hin E) in Hp. congruence.
  - rewrite filter_snoc. unfold has_partner at 2. simpl.
    destruct (String.eqb q q') eqn:E; [apply String.eqb_eq in E; congruence |].
    apply app_nil_r.
Qed.

(** X8.  With ids distinct, a POST callback for one partner leaves the rows
    of every other partner as they were, whatever the provider answers. *)
Theorem exchange_leaves_other_partners body c s p q q' net now w :
  keys_fresh w ->
  callback_fields (POST body) = Some (c, s, p) ->
  adapt ColPartner p = Some q ->
  q' <> q ->
  records_of q' (snd (callback (POST body) net now w)) = records_of q' w.
Proof.
  intros [Hnd _] Hf Hq Hne.
  destruct (callback_cases (POST body) net now w)
    as [[E _] | [(msg & st & E & _) | [(c1 & s1 & p1 & _ & _ & E) |
        [(c1 & s1 & p1 & b1 & st & _ & _ & E & _) |
         (c1 & s1 & p1 & q1 & t & Hf1 & _ & Hq1 & E)]]]]; rewrite E; simpl;
    try reflexivity.
  rewrite Hf in Hf1. injection Hf1 as <- <- <-. rewrite Hq in Hq1. injection Hq1 as <-.
  apply (upsert_other q q' t now (sent (code_call cfg c) w)); assumption.
Qed.

Lemma upsert_keys_fresh q t now w : keys_fresh w -> keys_fresh (upsert q t now w).
Proof.
  intros [Hnd Hlt]. unfold keys_fresh, upsert.
  destruct (find (has_partner q) (sellers w)); simpl.
  - rewrite ids_set_token. split; [exact Hnd | apply below_set_token; exact Hlt].
  - split.
    + rewrite map_app. simpl. apply nodup_snoc_id; [exact Hnd |].
      apply below_not_in. exact Hlt.
    + apply below_snoc; [exact Hlt | reflexivity].
Qed.

Lemma find_of_records q l r :
  List.filter (has_partner q) l = [r] -> find (has_partner q) l = Some r.
Proof.
  induction l as [| a l IH]; simpl; [discriminate |].
  destruct (has_partner q a); [intros [= -> _]; reflexivity | exact IH].
Qed.

Lemma set_token_fixed l row t :
  List.NoDup (map id l) -> In row l -> refresh_token row = t ->
  map (set_token (id row) t) l = l.
Proof.
  intros Hnd Hin Ht. rewrite <- (map_id l) at 2. apply map_ext_in. intros r Hr.
  unfold set_token. destruct (id r =? id row) eqn:E; [| reflexivity].
  apply Z.eqb_eq in E. rewrite (same_id_same_row _ _ _ Hnd Hr Hin E).
  destruct row; simpl in *. subst. reflexivity.
Qed.

Lemma upsert_again q t now1 now2 c w :
  unique_partners w ->
  keys_fresh w ->
  store (upsert q t now2 (sent c (upsert q t now1 w))) = store (upsert q t now1 w).
Proof.
  intros Hu Hk.
  destruct (upsert_record q t now1 w Hu) as (row & Hr & Ht & _).
  pose proof (upsert_keys_fresh q t now1 w Hk) as [Hnd _].
  pose proof (find_of_records _ _ _ Hr) as Hfind.
  unfold upsert at 1. simpl. rewrite Hfind. unfold store. simpl.
  apply find_some in Hfind as [Hin _].
  rewrite (set_token_fixed _ row t Hnd Hin Ht). reflexivity.
Qed.

(** X9.  A completed exchange repeated with the provider returning the same
    refresh token leaves the table and its sequence exactly as the first
    exchange left them (partner ids and ids being distinct): no second row,
    no new id, no rewritten timestamp. *)
Theorem repeated_exchange_is_idempotent
    w p t body1 body2 c1 c2 s1 s2 net1 net2 now1 now2 td1 td2 :
  unique_partners w ->
  keys_fresh w ->
  callback_fields (POST body1) = Some (c1, s1, PStr p) ->
  callback_fields (POST body2) = Some (c2, s2, PStr p) ->
  s1 = of_session (nonce w) ->
  s2 = of_session (nonce w) ->
  py_not c1 || py_not s1 || py_not (PStr p) = false ->
  py_not c2 || py_not s2 || py_not (PStr p) = false ->
  net1 (code_call cfg c1) = NetResp 200 (Some (PDict td1)) ->
  net2 (code_call cfg c2) = NetResp 200 (Some (PDict td2)) ->
  dict_get td1 "refresh_token" = Some (PStr t) ->
  dict_get td2 "refresh_token" = Some (PStr t) ->
  adapt ColPartner (PStr p) = Some p ->
  adapt ColToken (PStr t) = Some t ->
  exists w1 w2,
    callback (POST body1) net1 now1 w = (inr (Some authorized), w1)
    /\ callback (POST body2) net2 now2 w1 = (inr (Some authorized), w2)
    /\ store w2 = store w1.
Proof.
  intros Hu Hk Hf1 Hf2 Hs1 Hs2 Hm1 Hm2 Hn1 Hn2 Ht1 Ht2 Hp Ha.
  apply py_ne_false in Hs1, Hs2.
  set (wa := sent (code_call cfg c1) w).
  exists (upsert p t now1 wa), (upsert p t now2 (sent (code_call cfg c2) (upsert p t now1 wa))).
  split.
  { apply (exchange_stored _ c1 s1 (PStr p) _ _ _ td1 (PStr t)); try assumption.
    - rewrite Ht1. reflexivity.
    - discriminate. }
  split.
  { apply (exchange_stored _ c2 s2 (PStr p) _ _ _ td2 (PStr t)); try assumption.
    - unfold bound_nonce in *. rewrite upsert_session. exact Hs2.
    - rewrite Ht2. reflexivity.
    - discriminate. }
  apply upsert_again; assumption.
Qed.

(** X10.  Insert, then look up: after a completed exchange the query the
    route runs for that partner id finds one row, and the row carries the
    token the provider returned. *)
Theorem stored_token_is_found body c s p net now w td v q t :
  unique_partners w ->
  callback_fields (POST body) = Some (c, s, p) ->
  s = of_session (nonce w) ->
  py_not c || py_not s || py_not p = false ->
  net (code_call cfg c) = NetResp 200 (Some (PDict td)) ->
  default PNone (dict_get td "refresh_token") = v ->
  v <> PNone ->
  adapt ColPartner p = Some q ->
  adapt ColToken v = Some t ->
  exists w' row,
    callback (POST body) net now w = (inr (Some authorized), w')
    /\ query_first adapt p w' = (inr (Some row), w')
    /\ records_of q w' = [row]
    /\ selling_partner_id row = q
    /\ refresh_token row = t.
Proof.
  intros Hu Hf Hs Hm Hnet Hv Hnn Hq Ht. apply py_ne_false in Hs.
  destruct (upsert_record q t now (sent (code_call cfg c) w) Hu) as (row & Hr & Htok & _).
  exists (upsert q t now (sent (code_call cfg c) w)), row.
  split; [apply (exchange_stored _ c s p _ _ _ td v q t); assumption |].
  pose proof (find_of_records _ _ _ Hr) as Hfind.
  split.
  - assert (Hp : py_not p = false) by (apply orb_false_iff in Hm; apply Hm).
    unfold query_first. destruct p; try discriminate; rewrite Hq, Hfind; reflexivity.
  - split; [exact Hr |]. split; [| exact Htok].
    apply find_some in Hfind as [_ H]. apply has_partner_eq. exact H.
Qed.

(** ** From [start_oauth] to the callback *)

Lemma start_oauth_nonce uuid4 w :
  unset (secret_key cfg) = false ->
  nonce (snd (start_oauth cfg str_exn uuid4 w)) = Some (generate_state uuid4).
Proof.
  intros Hk. unfold start_oauth, try_except, bind, session_set, ret, bound_nonce.
  rewrite Hk. simpl. apply lookup_insert_eq.
Qed.

(** X11.  [start_oauth] replaces whatever nonce was bound: in the world it
    leaves, a callback is answered with the state error unless its state is
    the nonce just issued (so a nonce issued earlier is no longer accepted),
    and a GET carrying the issued nonce, a code and a partner id is answered
    200 with the code. *)
Theorem issued_nonce_is_the_one_accepted uuid4 w req c s p net now :
  unset (secret_key cfg) = false ->
  callback_fields req = Some (c, s, p) ->
  let w1 := snd (start_oauth cfg str_exn uuid4 w) in
  (s <> PStr (generate_state uuid4) ->
   callback req net now w1 = (inr (Some (state_error req)), w1))
  /\ (s = PStr (generate_state uuid4) ->
      fst (callback req net now w1) <> inr (Some (state_error req)))
  /\ (s = PStr (generate_state uuid4) ->
      method req = "GET" ->
      py_not c || py_not s || py_not p = false ->
      callback req net now w1 =
        (inr (Some (Jsonify [("message", PStr "GET request successful");
                             ("auth_code", c)] 200)), w1)).
Proof.
  intros Hk Hf w1.
  assert (Hn : nonce w1 = Some (generate_state uuid4)) by (apply start_oauth_nonce; exact Hk).
  split; [| split].
  - intros Hs. apply (checks_state _ c s p); [exact Hf |].
    apply py_ne_true. rewrite Hn. exact Hs.
  - intros Hs. apply (passed_state_not_state_error _ c s p); [exact Hf |].
    apply py_ne_false. rewrite Hn. exact Hs.
  - intros Hs Hget Hm. destruct req as [args | args | body]; try discriminate.
    injection Hf as <- <- <-. apply get_passes; [| exact Hm].
    apply py_ne_false. rewrite Hn. exact Hs.
Qed.

(** ** A process started without a session secret *)

Lemma started_secret env :
  startup env = Started cfg -> secret_key cfg = env !! "FLASK_SECRET_KEY".
Proof.
  unfold startup. destruct (_ || _); [discriminate |].
  destruct (unset _); [discriminate |]. intros [= <-]. reflexivity.
Qed.

(** X12.  A process that started without [FLASK_SECRET_KEY] (unset or empty)
    cannot complete the flow: [start_oauth] never redirects and binds
    nothing, and no callback is ever answered 200, calls the provider or
    writes to the table. *)
Theorem without_session_secret_nothing_passes env :
  startup env = Started cfg ->
  unset (env !! "FLASK_SECRET_KEY") = true ->
  (forall uuid4 w,
      start_oauth cfg str_exn uuid4 w = (inr (internal_error str_exn SessionUnavailable), w))
  /\ (forall req net now w,
        snd (callback req net now w) = w
        /\ forall body, fst (callback req net now w) <> inr (Some (Jsonify body 200))).
Proof.
  intros Hst Hs. apply started_secret in Hst. rewrite <- Hst in Hs. split.
  - intros uuid4 w. unfold start_oauth, try_except, bind, session_set. rewrite Hs. reflexivity.
  - intros req net now w. apply no_nonce_no_success. unfold bound_nonce. rewrite Hs. reflexivity.
Qed.

(** ** The webhook *)

(** X14.  [handle_webhook] answers 200 with its fixed message for every body
    that decodes as JSON, whatever the value is (an array or [null] as well
    as an object), answers 500 exactly when the body does not decode, and in
    both cases leaves the session, the table and the calls as they were. *)
Theorem webhook_accepts_any_json body w :
  snd (handle_webhook str_exn body w) = w
  /\ (fst (handle_webhook str_exn body w)
      = inr (Jsonify [("message", PStr "Webhook received successfully")] 200)
      <-> body <> None)
  /\ (fst (handle_webhook str_exn body w) = inr (internal_error str_exn BadRequest)
      <-> body = None).
Proof.
  destruct body as [v |]; simpl.
  - split; [reflexivity |]. split; split; try discriminate; reflexivity.
  - split; [reflexivity |]. split; split; try discriminate; try reflexivity.
    intros H. contradiction.
Qed.

(** ** No success without the nonce *)

(** X15.  A callback is answered 200 only if a nonce is bound in the session
    and the request carries that very nonce as its state, together with a
    code and a partner id that are not empty: without the bound nonce no GET
    check passes and no exchange is made. *)
Theorem success_requires_nonce req net now w body :
  fst (callback req net now w) = inr (Some (Jsonify body 200)) ->
  exists c p n,
    callback_fields req = Some (c, PStr n, p)
    /\ nonce w = Some n
    /\ n <> ""
    /\ py_not c = false
    /\ py_not p = false.
Proof.
  intros H200.
  destruct (callback_fields req) as [[[c s] p] |] eqn:Hf.
  2:{ exfalso. destruct req as [args | args | [v |]]; simpl in Hf; try discriminate.
      destruct v; discriminate. }
  destruct (py_ne s (nonce w)) eqn:Hs.
  { rewrite (checks_state _ c s p) in H200 by assumption. discriminate. }
  destruct (py_not c || py_not s || py_not p) eqn:Hm.
  { rewrite (checks_fields _ c s p) in H200 by assumption. discriminate. }
  apply orb_false_iff in Hm as [Hm Hp]. apply orb_false_iff in Hm as [Hc Hst].
  apply py_ne_false in Hs. destruct (nonce w) as [n |]; simpl in Hs; subst s.
  - exists c, p, n. repeat split; try assumption.
    intros ->. discriminate.
  - discriminate.
Qed.

End Properties.

(** ** Start-up *)

(** C8, as the code has it.  The process refuses to start when the
    application id, the client secret, the redirect URI or the database URL
    is unset or empty.  With the four present it starts, whatever
    [FLASK_SECRET_KEY] is, and keeps that value as its secret key. *)
Theorem startup_requires_credentials env :
  (unset (env !! "LWA_APP_ID") = true
   \/ unset (env !! "LWA_CLIENT_SECRET") = true
   \/ unset (env !! "REDIRECT_URI") = true
   \/ unset (env !! "DATABASE_URL") = true ->
   exists message, startup env = Abort message)
  /\ (unset (env !! "LWA_APP_ID") = false ->
      unset (env !! "LWA_CLIENT_SECRET") = false ->
      unset (env !! "REDIRECT_URI") = false ->
      unset (env !! "DATABASE_URL") = false ->
      exists cfg, startup env = Started cfg
                  /\ secret_key cfg = env !! "FLASK_SECRET_KEY"
                  /\ env !! "LWA_APP_ID" = Some (LWA_APP_ID cfg)
                  /\ env !! "LWA_CLIENT_SECRET" = Some (LWA_CLIENT_SECRET cfg)
                  /\ env !! "REDIRECT_URI" = Some (REDIRECT_URI cfg)
                  /\ env !! "DATABASE_URL" = Some (DATABASE_URL cfg)).
Proof.
  unfold startup.
  destruct (env !! "LWA_APP_ID") as [a |] eqn:Ea;
    destruct (env !! "LWA_CLIENT_SECRET") as [b |] eqn:Eb;
    destruct (env !! "REDIRECT_URI") as [c |] eqn:Ec;
    destruct (env !! "DATABASE_URL") as [d |] eqn:Ed; simpl;
    (split; [| try discriminate]);
    try (intros _; repeat (match goal with |- context [String.eqb ?x ""] => destruct (String.eqb x "") end; simpl); eauto; fail).
  - intros H.
    destruct (String.eqb a ""), (String.eqb b ""), (String.eqb c ""), (String.eqb d "");
      simpl; eauto; intuition discriminate.
  - intros -> -> -> ->. simpl. eexists. repeat split; reflexivity.
Qed.

(** X13.  Which message the process aborts with: the credentials message
    whenever the application id, the client secret or the redirect URI is
    unset or empty, also when the database URL is missing too; the database
    message only when those three are present.  A configuration that
    started holds four non-empty strings. *)
Theorem startup_abort_messages env :
  (startup env
   = Abort "Amazon SP-API credentials are missing. Check your environment variables."
   <-> unset (env !! "LWA_APP_ID") || unset (env !! "LWA_CLIENT_SECRET")
       || unset (env !! "REDIRECT_URI") = true)
  /\ (startup env
      = Abort "Database URL is missing. Ensure DATABASE_URL is set in your environment variables."
      <-> unset (env !! "LWA_APP_ID") || unset (env !! "LWA_CLIENT_SECRET")
          || unset (env !! "REDIRECT_URI") = false
          /\ unset (env !! "DATABASE_URL") = true)
  /\ (forall cfg,
        startup env = Started cfg ->
        LWA_APP_ID cfg <> "" /\ LWA_CLIENT_SECRET cfg <> ""
        /\ REDIRECT_URI cfg <> "" /\ DATABASE_URL cfg <> "").
Proof.
  unfold startup.
  destruct (unset (env !! "LWA_APP_ID") || unset (env !! "LWA_CLIENT_SECRET")
            || unset (env !! "REDIRECT_URI")) eqn:E3.
  - split; [tauto |]. split; [| discriminate]. split; [discriminate | intros [? _]; discriminate].
  - destruct (unset (env !! "DATABASE_URL")) eqn:Ed.
    + split; [split; discriminate |]. split; [tauto | discriminate].
    + split; [split; discriminate |]. split; [split; [discriminate | intros [_ ?]; discriminate] |].
      intros cfg [= <-]. simpl.
      apply orb_false_iff in E3 as [E3 Er]. apply orb_false_iff in E3 as [Ea Ec].
      destruct (env !! "LWA_APP_ID") as [a |]; [| discriminate].
      destruct (env !! "LWA_CLIENT_SECRET") as [b |]; [| discriminate].
      destruct (env !! "REDIRECT_URI") as [r |]; [| discriminate].
      destruct (env !! "DATABASE_URL") as [d |]; [| discriminate].
      simpl in *. repeat split; intros ->; discriminate.
Qed.

(** * The statements at concrete inputs *)

Lemma state_mismatch_rejected_witness :
  callback_fields get_x = Some (PStr "abc", PStr "x", PStr "P1")
  /\ PStr "x" <> of_session (bound_nonce cfg0 w0)
  /\ handle_callback cfg0 text_only exn_name get_x unreachable 0 w0
     = (inr (Some (Jsonify [("error", PStr "Invalid state parameter in GET request")] 400)), w0).
Proof.
  assert (H1 : callback_fields get_x = Some (PStr "abc", PStr "x", PStr "P1")) by reflexivity.
  assert (H2 : PStr "x" <> of_session (bound_nonce cfg0 w0)) by (vm_compute; discriminate).
  split; [exact H1 | split; [exact H2 |]].
  exact (proj1 (state_mismatch_rejected cfg0 text_only exn_name get_x unreachable 0 w0)
               (PStr "abc") (PStr "x") (PStr "P1") H1 H2).
Defined.

Lemma validation_order_witness :
  callback_fields post_Y_no_code = Some (PNone, PStr "Y", PStr "P1")
  /\ PStr "Y" <> of_session (bound_nonce cfg0 w0)
  /\ handle_callback cfg0 text_only exn_name post_Y_no_code unreachable 0 w0
     = (inr (Some (Jsonify [("error", PStr "Invalid state parameter in POST request")] 400)), w0).
Proof.
  assert (H1 : callback_fields post_Y_no_code = Some (PNone, PStr "Y", PStr "P1")) by reflexivity.
  assert (H2 : PStr "Y" <> of_session (bound_nonce cfg0 w0)) by (vm_compute; discriminate).
  split; [exact H1 | split; [exact H2 |]].
  exact (proj1 (proj1 (validation_order cfg0 text_only exn_name post_Y_no_code unreachable 0 w0)
                      PNone (PStr "Y") (PStr "P1") H1) H2).
Defined.

Lemma second_exchange_updates_in_place_witness :
  exists w1 w2 row1 row2,
    handle_callback cfg0 text_only exn_name post_P1
      (answers [("refresh_token", PStr "RT1")]) 100 w0
    = (inr (Some (Jsonify [("message", PStr "Authorization successful")] 200)), w1)
    /\ handle_callback cfg0 text_only exn_name post_P1
         (answers [("refresh_token", PStr "RT2")]) 200 w1
       = (inr (Some (Jsonify [("message", PStr "Authorization successful")] 200)), w2)
    /\ records_of "P1" w1 = [row1]
    /\ refresh_token row1 = "RT1"
    /\ (records_of "P1" w0 = [] -> created_at row1 = 100)
    /\ records_of "P1" w2 = [row2]
    /\ refresh_token row2 = "RT2"
    /\ created_at row2 = created_at row1
    /\ id row2 = id row1
    /\ unique_partners w2.
Proof.
  apply (second_exchange_updates_in_place cfg0 text_only exn_name w0 "P1" "RT1" "RT2"
           (Some (PDict [("code", PStr "abc"); ("state", PStr "X");
                         ("selling_partner_id", PStr "P1")]))
           (Some (PDict [("code", PStr "abc"); ("state", PStr "X");
                         ("selling_partner_id", PStr "P1")]))
           (PStr "abc") (PStr "abc") (PStr "X") (PStr "X")
           (answers [("refresh_token", PStr "RT1")])
           (answers [("refresh_token", PStr "RT2")])
           100 200
           [("refresh_token", PStr "RT1")] [("refresh_token", PStr "RT2")]);
    try reflexivity.
  constructor.
Defined.

Lemma upstream_failure_passthrough_witness :
  exists r w',
    handle_callback cfg0 text_only exn_name post_P1 refuses 100 w0 = (inr (Some r), w')
    /\ store w' = store w0
    /\ session w' = session w0
    /\ outbox w' = code_call cfg0 (PStr "abc") :: outbox w0
    /\ (forall payload,
          Some (PDict [("error", PStr "invalid_grant")]) = Some payload ->
          r = Jsonify [("error", PStr "Failed to exchange authorization code");
                       ("details", payload)] 400)
    /\ (Some (PDict [("error", PStr "invalid_grant")]) = None ->
        r = internal_error exn_name JSONDecodeError).
Proof.
  apply (upstream_failure_passthrough cfg0 text_only exn_name
           (Some (PDict [("code", PStr "abc"); ("state", PStr "X");
                         ("selling_partner_id", PStr "P1")]))
           (PStr "abc") (PStr "X") (PStr "P1") refuses 100 w0 400
           (Some (PDict [("error", PStr "invalid_grant")]))).
  - reflexivity.
  - vm_compute. reflexivity.
  - reflexivity.
  - reflexivity.
  - lia.
Defined.

Lemma missing_refresh_token_is_refused_witness :
  exists e w',
    handle_callback cfg0 text_only exn_name post_P1
      (answers [("access_token", PStr "AT")]) 100 w0
    = (inr (Some (internal_error exn_name e)), w')
    /\ store w' = store w0
    /\ session w' = session w0
    /\ (e = IntegrityError ColToken \/ e = DataError ColPartner (PStr "P1")).
Proof.
  apply (missing_refresh_token_is_refused cfg0 text_only exn_name
           (Some (PDict [("code", PStr "abc"); ("state", PStr "X");
                         ("selling_partner_id", PStr "P1")]))
           (PStr "abc") (PStr "X") (PStr "P1")
           (answers [("access_token", PStr "AT")]) 100 w0
           [("access_token", PStr "AT")]).
  - reflexivity.
  - vm_compute. reflexivity.
  - reflexivity.
  - reflexivity.
  - reflexivity.
Defined.

(** C5, as stated, fails: the provider answers 200 without [refresh_token],
    and the route answers 500 and stores no row. *)
Lemma missing_refresh_token_not_stored :
  let r := handle_callback cfg0 text_only exn_name post_P1
             (answers [("access_token", PStr "AT")]) 100 w0 in
  dict_get [("access_token", PStr "AT")] "refresh_token" = None
  /\ fst r = inr (Some (Jsonify [("error", PStr "An error occurred: IntegrityError")] 500))
  /\ sellers (snd r) = []
  /\ ~ (exists row, In row (sellers (snd r)) /\ selling_partner_id row = "P1").
Proof.
  vm_compute. repeat split. intros [row [[] _]].
Qed.

Lemma get_check_is_read_only_witness :
  handle_callback cfg0 text_only exn_name get_X unreachable 0 w0
  = (inr (Some (Jsonify [("message", PStr "GET request successful");
                         ("auth_code", PStr "abc")] 200)), w0).
Proof.
  apply (get_check_is_read_only cfg0 text_only exn_name _ unreachable 0 w0
           (PStr "abc") (PStr "X") (PStr "P1")).
  - reflexivity.
  - vm_compute. reflexivity.
  - reflexivity.
Defined.

Lemma start_oauth_sends_the_bound_nonce_witness :
  exists w',
    start_oauth cfg0 exn_name "0b5f1c9e-7a44-4d0e-9c51-3f2a6b8d1e70" w0
    = (inr (Redirect
         "https://sellercentral.amazon.com.mx/apps/authorize/consent?application_id=APP&state=0b5f1c9e-7a44-4d0e-9c51-3f2a6b8d1e70&version=beta&redirect_uri=https://broker.example/callback"),
       w')
    /\ bound_nonce cfg0 w' = Some "0b5f1c9e-7a44-4d0e-9c51-3f2a6b8d1e70"
    /\ (forall k, k <> "oauth_state" -> session w' !! k = session w0 !! k)
    /\ store w' = store w0
    /\ outbox w' = outbox w0.
Proof.
  exact (proj1 (start_oauth_sends_the_bound_nonce cfg0 exn_name
                  "0b5f1c9e-7a44-4d0e-9c51-3f2a6b8d1e70" w0) eq_refl).
Defined.

Lemma startup_requires_credentials_witness :
  unset (env_no_database !! "DATABASE_URL") = true
  /\ exists message, startup env_no_database = Abort message.
Proof.
  assert (H : unset (env_no_database !! "DATABASE_URL") = true) by (vm_compute; reflexivity).
  split; [exact H |].
  apply (proj1 (startup_requires_credentials env_no_database)).
  right. right. right. exact H.
Defined.

(** C8, as stated, fails: without [FLASK_SECRET_KEY] the process starts. *)
Lemma startup_without_session_secret :
  env_no_secret !! "FLASK_SECRET_KEY" = None
  /\ startup env_no_secret
     = Started (Config None "amzn1.app" "s3cret" "https://broker.example/callback"
                       "postgres://db").
Proof.
  vm_compute. split; reflexivity.
Qed.

Lemma refresh_access_token_reads_through_witness :
  fst (refresh_access_token cfg0 (PStr "RT1") (answers [("access_token", PStr "AT")]) w0)
  = inr (PStr "AT")
  /\ fst (refresh_access_token cfg0 (PStr "RT1") refuses w0) = inr PNone.
Proof.
  split.
  - apply (proj1 (proj2 (refresh_access_token_reads_through cfg0 (PStr "RT1")
                           (answers [("access_token", PStr "AT")]) w0))
                 [("access_token", PStr "AT")]).
    reflexivity.
  - apply (proj1 (proj2 (proj2 (refresh_access_token_reads_through cfg0 (PStr "RT1")
                                  refuses w0)))
                 400 (Some (PDict [("error", PStr "invalid_grant")]))).
    + reflexivity.
    + lia.
Defined.

Lemma nonce_survives_callback_witness :
  let w' := snd (handle_callback cfg0 text_only exn_name post_P1
                   (answers [("refresh_token", PStr "RT1")]) 100 w0) in
  bound_nonce cfg0 w' = bound_nonce cfg0 w0
  /\ py_ne (PStr "X") (bound_nonce cfg0 w') = false
  /\ fst (handle_callback cfg0 text_only exn_name post_P1
            (answers [("refresh_token", PStr "RT2")]) 200 w')
     <> inr (Some (state_error post_P1)).
Proof.
  intros w'.
  pose proof (nonce_survives_callback cfg0 text_only exn_name post_P1
                (answers [("refresh_token", PStr "RT1")]) 100 w0) as (_ & Hn & Hreplay & _).
  split; [exact Hn |].
  apply (Hreplay (PStr "abc") (PStr "X") (PStr "P1")).
  - reflexivity.
  - vm_compute. reflexivity.
Defined.

(** * The further properties at concrete inputs *)

Lemma callback_answers_witness :
  method get_x <> "HEAD"
  /\ exists body status,
       fst (handle_callback cfg0 text_only exn_name get_x unreachable 0 w0)
       = inr (Some (Jsonify body status))
       /\ (status = 200 \/ status = 400 \/ status = 500)
       /\ (status <> 200 -> exists msg, dict_get body "error" = Some (PStr msg))
       /\ (status = 200 -> dict_get body "error" = None).
Proof.
  assert (H : method get_x <> "HEAD") by discriminate.
  split; [exact H |].
  exact (proj2 (callback_answers cfg0 text_only exn_name get_x unreachable 0 w0) H).
Defined.


Lemma at_most_one_call_witness :
  method get_X <> "POST"
  /\ snd (handle_callback cfg0 text_only exn_name get_X unreachable 0 w0) = w0.
Proof.
  assert (H : method get_X <> "POST") by discriminate.
  split; [exact H |].
  exact (proj2 (at_most_one_call cfg0 text_only exn_name get_X unreachable 0 w0) H).
Defined.

Lemma exchange_errors_are_internal_witness :
  handle_callback cfg0 text_only exn_name post_P1 unreachable 100 w0
  = (inr (Some (internal_error exn_name (RequestException "unreachable"))),
     sent (code_call cfg0 (PStr "abc")) w0).
Proof.
  apply (proj1 (exchange_errors_are_internal cfg0 text_only exn_name
                  (Some (PDict [("code", PStr "abc"); ("state", PStr "X");
                                ("selling_partner_id", PStr "P1")]))
                  (PStr "abc") (PStr "X") (PStr "P1") unreachable 100 w0
                  eq_refl eq_refl eq_refl) "unreachable").
  reflexivity.
Defined.

Lemma absent_state_absent_nonce_witness :
  bound_nonce cfg0 w_fresh = None
  /\ callback_fields get_no_state = Some (PStr "abc", PNone, PStr "P1")
  /\ handle_callback cfg0 text_only exn_name get_no_state unreachable 0 w_fresh
     = (inr (Some (missing_error get_no_state)), w_fresh).
Proof.
  assert (H1 : bound_nonce cfg0 w_fresh = None) by reflexivity.
  assert (H2 : callback_fields get_no_state = Some (PStr "abc", PNone, PStr "P1"))
    by reflexivity.
  split; [exact H1 | split; [exact H2 |]].
  exact (absent_state_absent_nonce cfg0 text_only exn_name get_no_state
           (PStr "abc") (PStr "P1") unreachable 0 w_fresh H1 H2).
Defined.

Lemma rows_survive_witness :
  In (Seller 1 "P2" "RT0" 50) (sellers w_P2)
  /\ holds_row (Seller 1 "P2" "RT0" 50)
       (snd (handle_callback cfg0 text_only exn_name post_P1
               (answers [("refresh_token", PStr "RT1")]) 100 w_P2)).
Proof.
  assert (H : In (Seller 1 "P2" "RT0" 50) (sellers w_P2)) by (left; reflexivity).
  split; [exact H |].
  exact (rows_survive cfg0 text_only exn_name post_P1
           (answers [("refresh_token", PStr "RT1")]) 100 w_P2 _ H).
Defined.

Lemma callback_keeps_constraints_witness :
  unique_partners w_P2
  /\ keys_fresh w_P2
  /\ unique_partners (snd (handle_callback cfg0 text_only exn_name post_P1
                             (answers [("refresh_token", PStr "RT1")]) 100 w_P2))
  /\ keys_fresh (snd (handle_callback cfg0 text_only exn_name post_P1
                        (answers [("refresh_token", PStr "RT1")]) 100 w_P2)).
Proof.
  assert (H1 : unique_partners w_P2).
  { repeat constructor. intros []. }
  assert (H2 : keys_fresh w_P2).
  { split; repeat constructor. intros []. }
  pose proof (callback_keeps_constraints cfg0 text_only exn_name post_P1
                (answers [("refresh_token", PStr "RT1")]) 100 w_P2) as [Hu Hk].
  split; [exact H1 | split; [exact H2 | split; [exact (Hu H1) | exact (Hk H2)]]].
Defined.

Lemma exchange_leaves_other_partners_witness :
  records_of "P2" (snd (handle_callback cfg0 text_only exn_name post_P1
                          (answers [("refresh_token", PStr "RT1")]) 100 w_P2))
  = records_of "P2" w_P2.
Proof.
  apply (exchange_leaves_other_partners cfg0 text_only exn_name
           (Some (PDict [("code", PStr "abc"); ("state", PStr "X");
                         ("selling_partner_id", PStr "P1")]))
           (PStr "abc") (PStr "X") (PStr "P1") "P1" "P2").
  - split; repeat constructor. intros [].
  - reflexivity.
  - reflexivity.
  - discriminate.
Defined.

Lemma repeated_exchange_is_idempotent_witness :
  exists w1 w2,
    handle_callback cfg0 text_only exn_name post_P1
      (answers [("refresh_token", PStr "RT1")]) 100 w0 = (inr (Some authorized), w1)
    /\ handle_callback cfg0 text_only exn_name post_P1
         (answers [("refresh_token", PStr "RT1")]) 200 w1 = (inr (Some authorized), w2)
    /\ store w2 = store w1.
Proof.
  apply (repeated_exchange_is_idempotent cfg0 text_only exn_name w0 "P1" "RT1"
           (Some (PDict [("code", PStr "abc"); ("state", PStr "X");
                         ("selling_partner_id", PStr "P1")]))
           (Some (PDict [("code", PStr "abc"); ("state", PStr "X");
                         ("selling_partner_id", PStr "P1")]))
           (PStr "abc") (PStr "abc") (PStr "X") (PStr "X")
           (answers [("refresh_token", PStr "RT1")])
           (answers [("refresh_token", PStr "RT1")])
           100 200
           [("refresh_token", PStr "RT1")] [("refresh_token", PStr "RT1")]);
    try reflexivity.
  - constructor.
  - split; constructor.
Defined.

Lemma stored_token_is_found_witness :
  exists w' row,
    handle_callback cfg0 text_only exn_name post_P1
      (answers [("refresh_token", PStr "RT1")]) 100 w0 = (inr (Some authorized), w')
    /\ query_first text_only (PStr "P1") w' = (inr (Some row), w')
    /\ records_of "P1" w' = [row]
    /\ selling_partner_id row = "P1"
    /\ refresh_token row = "RT1".
Proof.
  apply (stored_token_is_found cfg0 text_only exn_name
           (Some (PDict [("code", PStr "abc"); ("state", PStr "X");
                         ("selling_partner_id", PStr "P1")]))
           (PStr "abc") (PStr "X") (PStr "P1")
           (answers [("refresh_token", PStr "RT1")]) 100 w0
           [("refresh_token", PStr "RT1")] (PStr "RT1") "P1" "RT1");
    try reflexivity.
  - constructor.
  - discriminate.
Defined.

Lemma issued_nonce_is_the_one_accepted_witness :
  let w1 := snd (start_oauth cfg0 exn_name "N2" w0) in
  handle_callback cfg0 text_only exn_name get_X unreachable 0 w1
  = (inr (Some (state_error get_X)), w1).
Proof.
  intros w1.
  apply (proj1 (issued_nonce_is_the_one_accepted cfg0 text_only exn_name "N2" w0 get_X
                  (PStr "abc") (PStr "X") (PStr "P1") unreachable 0 eq_refl eq_refl)).
  discriminate.
Defined.

Lemma without_session_secret_nothing_passes_witness :
  startup env_no_secret
  = Started (Config None "amzn1.app" "s3cret" "https://broker.example/callback" "postgres://db")
  /\ unset (env_no_secret !! "FLASK_SECRET_KEY") = true
  /\ forall body,
       fst (handle_callback
              (Config None "amzn1.app" "s3cret" "https://broker.example/callback" "postgres://db")
              text_only exn_name get_X unreachable 0 w0)
       <> inr (Some (Jsonify body 200)).
Proof.
  assert (H1 : startup env_no_secret
               = Started (Config None "amzn1.app" "s3cret"
                                 "https://broker.example/callback" "postgres://db"))
    by (vm_compute; reflexivity).
  assert (H2 : unset (env_no_secret !! "FLASK_SECRET_KEY") = true) by (vm_compute; reflexivity).
  split; [exact H1 | split; [exact H2 |]].
  exact (proj2 (proj2 (without_session_secret_nothing_passes _ text_only exn_name
                         env_no_secret H1 H2) get_X unreachable 0 w0)).
Defined.

Lemma startup_abort_messages_witness :
  startup env_no_database
  = Abort "Database URL is missing. Ensure DATABASE_URL is set in your environment variables.".
Proof.
  apply (proj2 (proj1 (proj2 (startup_abort_messages env_no_database)))).
  split; vm_compute; reflexivity.
Defined.

Lemma webhook_accepts_any_json_witness :
  fst (handle_webhook exn_name (Some (PList [PInt 1; PNone])) w0)
  = inr (Jsonify [("message", PStr "Webhook received successfully")] 200).
Proof.
  apply (proj2 (proj1 (proj2 (webhook_accepts_any_json exn_name
                                (Some (PList [PInt 1; PNone])) w0)))).
  discriminate.
Defined.

Lemma success_requires_nonce_witness :
  exists c p n,
    callback_fields get_X = Some (c, PStr n, p)
    /\ bound_nonce cfg0 w0 = Some n
    /\ n <> ""
    /\ py_not c = false
    /\ py_not p = false.
Proof.
  apply (success_requires_nonce cfg0 text_only exn_name get_X unreachable 0 w0
           [("message", PStr "GET request successful"); ("auth_code", PStr "abc")]).
  vm_compute. reflexivity.
Defined.
